(** * yadisk_api: request execution, polling and upload glue

    A shallow embedding of [yadisk_api/requester.py] and of the parts of
    [yadisk_api/client.py] that the specification talks about.

    Python objects are embedded as follows.
    - A Python value that travels through JSON bodies, query dictionaries
      and exception arguments is a [pyval]; a [dict] is an association
      list in insertion order.  A [str] is a Rocq [string] holding the
      UTF-8 bytes of the text.  Floats are left out.
    - A raised exception is the [Raise] case of [result]; every method is
      a function from the state of the world to a result and a new state.
    - The world is the chronological log of what the process did to its
      environment (slept, called the HTTP transport) together with the
      store of open file objects.  The remote side is a function from the
      log so far and the request to a response, so a server may answer
      differently over time. *)

From Stdlib Require Import ZArith List String Ascii Bool Lia DecimalString.
Import ListNotations.

Set Warnings "-register-all".

Open Scope list_scope.
Open Scope string_scope.
Open Scope Z_scope.

(** ** Python values *)

Inductive pyval : Type :=
| PNone
| PBool (b : bool)
| PInt (z : Z)
| PStr (s : string)
| PList (l : list pyval)
| PDict (d : list (string * pyval)).

(** [d[k]] on an association list, and [d[k] = v], which keeps the
    position of a key that is already present. *)
Fixpoint dict_get {V : Type} (d : list (string * V)) (k : string) : option V :=
  match d with
  | [] => None
  | (k', v) :: d' => if String.eqb k' k then Some v else dict_get d' k
  end.

Fixpoint dict_set {V : Type} (d : list (string * V)) (k : string) (v : V)
  : list (string * V) :=
  match d with
  | [] => [(k, v)]
  | (k', v') :: d' =>
      if String.eqb k' k then (k', v) :: d' else (k', v') :: dict_set d' k v
  end.

(** ** Exceptions *)

(** Modelled from the spec: the [errors] module of the package, which
    [requester.py] and [client.py] import and which is not part of the
    sources at hand.  The specification gives a flat taxonomy (the classes of
    the status table plus the generic [RequestError]), each exception
    carrying the server's message as its only argument. *)
Inductive ErrorKind : Type :=
| RequestError
| UnauthorizedError
| ForbiddenError
| DiskPathError
| NotFoundError
| PreconditionFailed
| PayloadTooLarge
| InternalServerError
| ServiceUnavailable
| InsufficientStorageError.

Scheme Equality for ErrorKind.

Inductive exn : Type :=
| ApiError (kind : ErrorKind) (message : pyval)
| KeyError (key : string)
| TypeError
| JSONDecodeError
| ValueError
| OSError.

Inductive result (A : Type) : Type :=
| Ok (a : A)
| Raise (e : exn).
Arguments Ok {A} a.
Arguments Raise {A} e.

(** [v[k]] for a string key: a [dict] looks the key up, every other value
    rejects a string subscript. *)
Definition py_getitem (v : pyval) (k : string) : result pyval :=
  match v with
  | PDict d => match dict_get d k with
               | Some x => Ok x
               | None => Raise (KeyError k)
               end
  | _ => Raise TypeError
  end.

(** ** The HTTP transport *)

Inductive Verb : Type := GET | POST | PUT | PATCH | DELETE.

(** One call [requests.<verb>(url, **kwargs)] as the transport receives
    it.  [files] holds, per form field, the bytes the transport read from
    the file object it was given. *)
Record Request : Type := mkRequest {
  verb : Verb;
  url : string;
  headers : list (string * string);
  params : option (list (string * pyval));
  data : option string;
  files : list (string * string);
  stream : bool
}.

(** [requests.Response]: [json_body] is what [response.json()] returns,
    [None] when the body does not parse. *)
Record Response : Type := mkResponse {
  status_code : Z;
  json_body : option pyval;
  content : string
}.

(** [response.json()] *)
Definition json (r : Response) : result pyval :=
  match json_body r with
  | Some v => Ok v
  | None => Raise JSONDecodeError
  end.

(** ** The world *)

(** A file object opened for reading: its bytes and its read position. *)
Record FileObj : Type := mkFile {
  file_bytes : string;
  file_pos : nat
}.

Inductive Event : Type :=
| EvSleep (secs : Z)
| EvRequest (r : Request).

Record World : Type := mkWorld {
  log : list Event;
  fobjs : list FileObj
}.

Definition Server : Type := list Event -> Request -> Response.

Definition M (A : Type) : Type := World -> result A * World.

Definition ret {A : Type} (a : A) : M A := fun w => (Ok a, w).

Definition raise {A : Type} (e : exn) : M A := fun w => (Raise e, w).

Definition bind {A B : Type} (m : M A) (f : A -> M B) : M B :=
  fun w =>
    match m w with
    | (Ok a, w') => f a w'
    | (Raise e, w') => (Raise e, w')
    end.

Declare Scope py_scope.
Delimit Scope py_scope with py.
Notation "x <- m ;; k" := (bind m (fun x => k))
  (at level 100, m at next level, right associativity) : py_scope.
Notation "m ;;; k" := (bind m (fun _ => k))
  (at level 100, right associativity) : py_scope.
Open Scope py_scope.

(** A pure step that may raise. *)
Definition lift {A : Type} (r : result A) : M A := fun w => (r, w).

(** [time.sleep(secs)]: a negative length is a [ValueError]. *)
Definition time_sleep (secs : Z) : M unit :=
  fun w =>
    if secs <? 0 then (Raise ValueError, w)
    else (Ok tt, mkWorld (log w ++ [EvSleep secs])%list (fobjs w)).

(** Bytes of [s] from position [n] on. *)
Fixpoint string_skip (n : nat) (s : string) : string :=
  match n, s with
  | O, _ => s
  | S n', String _ s' => string_skip n' s'
  | S _, EmptyString => EmptyString
  end.

Fixpoint list_set {A : Type} (l : list A) (i : nat) (x : A) : list A :=
  match l, i with
  | [], _ => []
  | _ :: l', O => x :: l'
  | y :: l', S i' => y :: list_set l' i' x
  end.

(** What a file object has not given out yet, and the file object once
    it has been read to its end. *)
Definition unread (f : FileObj) : string :=
  string_skip (file_pos f) (file_bytes f).

Definition exhausted (f : FileObj) : FileObj :=
  mkFile (file_bytes f) (Nat.max (file_pos f) (String.length (file_bytes f))).

(** [fileobject.read()]: everything from the read position to the end;
    the position moves to the end.  A handle that names no open file
    object behaves as a closed file does. *)
Definition file_read (h : nat) : M string :=
  fun w =>
    match nth_error (fobjs w) h with
    | Some f =>
        (Ok (unread f), mkWorld (log w) (list_set (fobjs w) h (exhausted f)))
    | None => (Raise ValueError, w)
    end.

(** The transport reads every file object it is handed, in order. *)
Fixpoint read_files (fs : list (string * nat)) : M (list (string * string)) :=
  match fs with
  | [] => ret []
  | (name, h) :: fs' =>
      bytes <- file_read h ;;
      rest <- read_files fs' ;;
      ret ((name, bytes) :: rest)
  end.

(** ** requester.py *)

Definition _CODE_TO_ERROR : list (Z * ErrorKind) :=
  [ (401, UnauthorizedError);
    (403, ForbiddenError);
    (409, DiskPathError);
    (404, NotFoundError);
    (412, PreconditionFailed);
    (413, PayloadTooLarge);
    (500, InternalServerError);
    (503, ServiceUnavailable);
    (507, InsufficientStorageError) ].

Definition STATUS_OK : Z := 200.
Definition STATUS_CREATED : Z := 201.
Definition STATUS_ACCEPTED : Z := 202.
Definition STATUS_NO_CONTENT : Z := 204.

Definition OK_STATUSES : list Z :=
  [STATUS_OK; STATUS_CREATED; STATUS_ACCEPTED; STATUS_NO_CONTENT].

(** [code in OK_STATUSES] *)
Definition in_statuses (code : Z) (s : list Z) : bool :=
  existsb (Z.eqb code) s.

(** [_CODE_TO_ERROR.get(code)]: [None] stands for [code not in
    _CODE_TO_ERROR]. *)
Fixpoint code_lookup (t : list (Z * ErrorKind)) (code : Z) : option ErrorKind :=
  match t with
  | [] => None
  | (c, k) :: t' => if Z.eqb c code then Some k else code_lookup t' code
  end.

Record Requester : Type := mkRequester { _token : string }.

Definition _disk_url : string := "https://cloud-api.yandex.net/v1/".

(** The keyword arguments a caller hands to [get], [post], [put], [patch]
    or [delete]; [kw_files] maps a form field to a file object handle.
    ([json], which no caller in [client.py] passes, is left out.) *)
Record Kwargs : Type := mkKwargs {
  kw_params : option (list (string * pyval));
  kw_data : option string;
  kw_headers : option (list (string * string));
  kw_files : list (string * nat);
  kw_stream : bool;
  absolute_url : bool;
  without_auth : bool
}.

Definition no_kwargs : Kwargs :=
  mkKwargs None None None [] false false false.

Section Transport.

Variable server : Server.

(** [method(url, *args, **kwargs)]: the transport reads the file objects,
    sends the request and hands back the server's response. *)
Definition call_transport (method : Verb) (u : string)
    (hs : list (string * string)) (kw : Kwargs) : M Response :=
  payload <- read_files (kw_files kw) ;;
  fun w =>
    let r := mkRequest method u hs (kw_params kw) (kw_data kw) payload
               (kw_stream kw) in
    (Ok (server (log w) r), mkWorld (log w ++ [EvRequest r])%list (fobjs w)).

(** [Requester.wrap(method)(url, **kwargs)] *)
Definition wrap (self : Requester) (method : Verb) (u : string) (kw : Kwargs)
  : M Response :=
  let u := if absolute_url kw then u else _disk_url ++ u in
  let hs := match kw_headers kw with
            | Some hs => hs
            | None => []
            end in
  let hs := if without_auth kw then hs
            else dict_set hs "Authorization" ("OAuth " ++ _token self) in
  response <- call_transport method u hs kw ;;
  if in_statuses (status_code response) OK_STATUSES then ret response
  else
    response_data <- lift (json response) ;;
    match code_lookup _CODE_TO_ERROR (status_code response) with
    | None =>
        message <- lift (py_getitem response_data "message") ;;
        raise (ApiError RequestError message)
    | Some kind =>
        message <- lift (py_getitem response_data "message") ;;
        raise (ApiError kind message)
    end.

Definition Requester_get (self : Requester) (u : string)
    (ps : option (list (string * pyval))) (kw : Kwargs) : M Response :=
  wrap self GET u
    (mkKwargs ps (kw_data kw) (kw_headers kw) (kw_files kw) (kw_stream kw)
       (absolute_url kw) (without_auth kw)).

Definition Requester_post (self : Requester) (u : string) (kw : Kwargs)
  : M Response :=
  wrap self POST u kw.

Definition Requester_put (self : Requester) (u : string) (kw : Kwargs)
  : M Response :=
  wrap self PUT u kw.

Definition Requester_patch (self : Requester) (u : string) (kw : Kwargs)
  : M Response :=
  wrap self PATCH u kw.

Definition Requester_delete (self : Requester) (u : string) (kw : Kwargs)
  : M Response :=
  wrap self DELETE u kw.

End Transport.

(** ** Python library functions used by client.py *)

(** [os.path.join(a, b)] of [posixpath], for two components. *)
Definition starts_with_slash (s : string) : bool :=
  match s with
  | String c _ => Ascii.eqb c "/"
  | EmptyString => false
  end.

Fixpoint ends_with_slash (s : string) : bool :=
  match s with
  | EmptyString => false
  | String c EmptyString => Ascii.eqb c "/"
  | String _ s' => ends_with_slash s'
  end.

Definition os_path_join (a b : string) : string :=
  if starts_with_slash b then b
  else if (String.eqb a "" || ends_with_slash a)%bool then a ++ b
  else a ++ "/" ++ b.

(** [sub in s] for strings. *)
Fixpoint is_substring (sub s : string) : bool :=
  (String.prefix sub s ||
   match s with
   | EmptyString => false
   | String _ s' => is_substring sub s'
   end)%bool.

(** The characters that mean something else than themselves in a regular
    expression of [re]. *)
Definition regex_special (c : ascii) : bool :=
  (Ascii.eqb c "." || Ascii.eqb c "^" || Ascii.eqb c "$" || Ascii.eqb c "*"
   || Ascii.eqb c "+" || Ascii.eqb c "?" || Ascii.eqb c "{" || Ascii.eqb c "}"
   || Ascii.eqb c "[" || Ascii.eqb c "]" || Ascii.eqb c "\"
   || Ascii.eqb c "|" || Ascii.eqb c "(" || Ascii.eqb c ")")%bool.

(** A start path that, put into a pattern, stands for itself. *)
Fixpoint regex_literal (s : string) : bool :=
  match s with
  | EmptyString => true
  | String c s' => (negb (regex_special c) && regex_literal s')%bool
  end.

(** Length of the match of the pattern [start_path\/?\*?] at the head of
    [s], [0%nat] when there is none.  Every character of [start_path] is taken
    literally: this is what [re] does for the start paths that satisfy
    [regex_literal], and only for those; a start path with a metacharacter
    in it (a dot, a plus sign, a parenthesis) is outside this model, and
    every statement about the walk over an arbitrary start path assumes
    [regex_literal] of it. *)
Definition match_start_path (start_path s : string) : nat :=
  if String.prefix start_path s then
    let n := String.length start_path in
    match string_skip n s with
    | String "/" (String "*" _) => (n + 2)%nat
    | String "/" _ => (n + 1)%nat
    | String "*" _ => (n + 1)%nat
    | _ => n
    end
  else 0%nat.

(** [re.sub(r'{}\/?\*?'.format(start_path), '', s)]: every match, left to
    right, is deleted.  [skip] counts the characters of the current match that
    are still to be dropped. *)
Fixpoint re_sub_from (start_path : string) (skip : nat) (s : string) : string :=
  match s with
  | EmptyString => EmptyString
  | String c s' =>
      match skip with
      | S k => re_sub_from start_path k s'
      | O =>
          match match_start_path start_path s with
          | O => String c (re_sub_from start_path 0 s')
          | S k => re_sub_from start_path k s'
          end
      end
  end.

Definition re_sub_start_path (start_path s : string) : string :=
  re_sub_from start_path 0 s.

(** [urllib.parse.quote_plus] on the UTF-8 bytes of a string: letters,
    digits and [_.-~] stay, a space becomes [+], every other byte becomes
    [%XX]. *)
Definition always_safe (c : ascii) : bool :=
  let n := nat_of_ascii c in
  ((65 <=? n) && (n <=? 90) || (97 <=? n) && (n <=? 122) ||
   (48 <=? n) && (n <=? 57) ||
   Ascii.eqb c "_" || Ascii.eqb c "." || Ascii.eqb c "-" ||
   Ascii.eqb c "~")%nat%bool.

Definition hex_digit (n : nat) : ascii :=
  if (n <? 10)%nat then ascii_of_nat (48 + n) else ascii_of_nat (55 + n).

Fixpoint quote_plus (s : string) : string :=
  match s with
  | EmptyString => EmptyString
  | String c s' =>
      if always_safe c then String c (quote_plus s')
      else if Ascii.eqb c " " then String "+" (quote_plus s')
      else
        let n := nat_of_ascii c in
        String "%" (String (hex_digit (n / 16)) (String (hex_digit (n mod 16))
          (quote_plus s')))
  end.

(** ["sep".join(l)] *)
Fixpoint str_join (sep : string) (l : list string) : string :=
  match l with
  | [] => ""
  | [x] => x
  | x :: l' => x ++ sep ++ str_join sep l'
  end.

(** *** hashlib.md5 *)

(** MD5 as RFC 1321 gives it, on 32-bit words held in [Z]. *)
Definition md5_shifts : list Z :=
  [ 7; 12; 17; 22; 7; 12; 17; 22; 7; 12; 17; 22; 7; 12; 17; 22;
    5; 9; 14; 20; 5; 9; 14; 20; 5; 9; 14; 20; 5; 9; 14; 20;
    4; 11; 16; 23; 4; 11; 16; 23; 4; 11; 16; 23; 4; 11; 16; 23;
    6; 10; 15; 21; 6; 10; 15; 21; 6; 10; 15; 21; 6; 10; 15; 21 ].

Definition md5_sines : list Z :=
  [ 0xd76aa478; 0xe8c7b756; 0x242070db; 0xc1bdceee;
    0xf57c0faf; 0x4787c62a; 0xa8304613; 0xfd469501;
    0x698098d8; 0x8b44f7af; 0xffff5bb1; 0x895cd7be;
    0x6b901122; 0xfd987193; 0xa679438e; 0x49b40821;
    0xf61e2562; 0xc040b340; 0x265e5a51; 0xe9b6c7aa;
    0xd62f105d; 0x02441453; 0xd8a1e681; 0xe7d3fbc8;
    0x21e1cde6; 0xc33707d6; 0xf4d50d87; 0x455a14ed;
    0xa9e3e905; 0xfcefa3f8; 0x676f02d9; 0x8d2a4c8a;
    0xfffa3942; 0x8771f681; 0x6d9d6122; 0xfde5380c;
    0xa4beea44; 0x4bdecfa9; 0xf6bb4b60; 0xbebfbc70;
    0x289b7ec6; 0xeaa127fa; 0xd4ef3085; 0x04881d05;
    0xd9d4d039; 0xe6db99e5; 0x1fa27cf8; 0xc4ac5665;
    0xf4292244; 0x432aff97; 0xab9423a7; 0xfc93a039;
    0x655b59c3; 0x8f0ccc92; 0xffeff47d; 0x85845dd1;
    0x6fa87e4f; 0xfe2ce6e0; 0xa3014314; 0x4e0811a1;
    0xf7537e82; 0xbd3af235; 0x2ad7d2bb; 0xeb86d391 ].

Definition word (z : Z) : Z := z mod 2 ^ 32.

Definition rotate_left (x c : Z) : Z :=
  word (Z.lor (Z.shiftl x c) (Z.shiftr x (32 - c))).

Definition word_not (x : Z) : Z := Z.lxor x 0xffffffff.

(** Bytes of a string as numbers. *)
Fixpoint bytes_of (s : string) : list Z :=
  match s with
  | EmptyString => []
  | String c s' => Z.of_nat (nat_of_ascii c) :: bytes_of s'
  end.

(** [n] bytes of [z], least significant first. *)
Fixpoint little_endian (n : nat) (z : Z) : list Z :=
  match n with
  | O => []
  | S n' => z mod 256 :: little_endian n' (z / 256)
  end.

Definition md5_pad (msg : list Z) : list Z :=
  let len := Z.of_nat (List.length msg) in
  let zeros := Z.to_nat ((55 - len) mod 64) in
  (msg ++ [128] ++ repeat 0 zeros
       ++ little_endian 8 ((8 * len) mod 2 ^ 64))%list.

(** The words of a message, four bytes each, least significant first. *)
Fixpoint words_of (fuel : nat) (bs : list Z) : list Z :=
  match fuel, bs with
  | S fuel', b0 :: b1 :: b2 :: b3 :: bs' =>
      (b0 + 256 * b1 + 65536 * b2 + 16777216 * b3) :: words_of fuel' bs'
  | _, _ => []
  end.

Definition md5_state : Type := (Z * Z * Z * Z)%type.

Definition md5_step (block : list Z) (st : md5_state) (i : Z) : md5_state :=
  let '(a, b, c, d) := st in
  let '(f, g) :=
    if i <? 16 then (Z.lor (Z.land b c) (Z.land (word_not b) d), i)
    else if i <? 32 then
      (Z.lor (Z.land d b) (Z.land (word_not d) c), (5 * i + 1) mod 16)
    else if i <? 48 then (Z.lxor b (Z.lxor c d), (3 * i + 5) mod 16)
    else (Z.lxor c (Z.lor b (word_not d)), (7 * i) mod 16) in
  let f := word (f + a + nth (Z.to_nat i) md5_sines 0
                 + nth (Z.to_nat g) block 0) in
  (d, word (b + rotate_left f (nth (Z.to_nat i) md5_shifts 0)), b, c).

Definition md5_rounds : list Z := map Z.of_nat (seq 0 64).

Definition md5_block (st : md5_state) (block : list Z) : md5_state :=
  let '(a0, b0, c0, d0) := st in
  let '(a, b, c, d) := fold_left (md5_step block) md5_rounds st in
  (word (a0 + a), word (b0 + b), word (c0 + c), word (d0 + d)).

(** Cut a list into pieces of [n] elements. *)
Fixpoint chunks (fuel n : nat) {A : Type} (l : list A) : list (list A) :=
  match fuel, l with
  | S fuel', _ :: _ => firstn n l :: chunks fuel' n (skipn n l)
  | _, _ => []
  end.

Definition md5_digest (msg : list Z) : list Z :=
  let ws := words_of (List.length msg + 72) (md5_pad msg) in
  let '(a, b, c, d) :=
    fold_left md5_block (chunks (List.length ws) 16 ws)
      (0x67452301, 0xefcdab89, 0x98badcfe, 0x10325476) in
  (little_endian 4 a ++ little_endian 4 b ++ little_endian 4 c
     ++ little_endian 4 d)%list.

Definition hex_lower (n : Z) : ascii :=
  if n <? 10 then ascii_of_nat (Z.to_nat (48 + n))
  else ascii_of_nat (Z.to_nat (87 + n)).

Fixpoint hex_of_bytes (bs : list Z) : string :=
  match bs with
  | [] => ""
  | b :: bs' => String (hex_lower (b / 16)) (String (hex_lower (b mod 16))
                  (hex_of_bytes bs'))
  end.

(** [hashlib.md5(bytes).hexdigest()] *)
Definition md5_hexdigest (s : string) : string :=
  hex_of_bytes (md5_digest (bytes_of s)).

Section Python.

(** [repr] of a [str], a builtin whose quoting and escaping rules stay
    abstract. *)
Variable repr_str : string -> string.

(** [repr(v)] *)
Fixpoint py_repr (v : pyval) : string :=
  match v with
  | PNone => "None"
  | PBool true => "True"
  | PBool false => "False"
  | PInt z => NilZero.string_of_int (Z.to_int z)
  | PStr s => repr_str s
  | PList l => "[" ++ str_join ", " (map py_repr l) ++ "]"
  | PDict d =>
      "{" ++ str_join ", "
               (map (fun kv => repr_str (fst kv) ++ ": " ++ py_repr (snd kv)) d)
          ++ "}"
  end.

(** [str(v)] *)
Definition py_str (v : pyval) : string :=
  match v with
  | PStr s => s
  | _ => py_repr v
  end.

(** [urllib.parse.urlencode(query, doseq=False)] for a [dict] with string
    keys: every item, whatever its value, becomes [key=value] with both
    sides passed through [str] and [quote_plus]. *)
Definition urlencode (query : list (string * pyval)) : string :=
  str_join "&"
    (map (fun kv => quote_plus (fst kv) ++ "=" ++ quote_plus (py_str (snd kv)))
       query).

End Python.

(** ** The local file system *)

(** What [client.py] asks of the operating system: [glob.glob],
    [os.path.isdir] and the bytes [open(path, 'rb')] gives access to
    ([None] when the path cannot be opened for reading). *)
Record FileSystem : Type := mkFileSystem {
  glob : string -> list string;
  isdir : string -> bool;
  file_content : string -> option string
}.

(** [open(path, 'rb')]: a fresh file object positioned at its start. *)
Definition open_rb (fs : FileSystem) (path : string) : M nat :=
  fun w =>
    match file_content fs path with
    | Some bytes =>
        (Ok (List.length (fobjs w)),
         mkWorld (log w) (fobjs w ++ [mkFile bytes 0])%list)
    | None => (Raise OSError, w)
    end.

(** ** client.py *)

(** Computations that may still be running when the fuel is used up:
    [None] is "the call has not ended within this many iterations", and the
    world is the one reached so far. *)
Definition P (A : Type) : Type := World -> option (result A) * World.

Definition terminating {A : Type} (m : M A) : P A :=
  fun w => let (r, w') := m w in (Some r, w').

Definition still_running {A : Type} : P A := fun w => (None, w).

Definition pbind {A B : Type} (m : P A) (f : A -> P B) : P B :=
  fun w =>
    match m w with
    | (Some (Ok a), w') => f a w'
    | (Some (Raise e), w') => (Some (Raise e), w')
    | (None, w') => (None, w')
    end.

Notation "x <~ m ;; k" := (pbind (terminating m) (fun x => k))
  (at level 100, m at next level, right associativity) : py_scope.

(** [try: m  except errors.<kind>: handler] *)
Definition try_except {A : Type} (m : M A) (kind : ErrorKind)
    (handler : pyval -> M A) : M A :=
  fun w =>
    match m w with
    | (Raise (ApiError k message), w') =>
        if ErrorKind_beq k kind then handler message w'
        else (Raise (ApiError k message), w')
    | other => other
    end.

(** A value used as the [url] of an absolute request.  The transport
    refuses what is not a string before it reads or sends anything. *)
Definition as_url (v : pyval) : result string :=
  match v with
  | PStr s => Ok s
  | _ => Raise ValueError
  end.

(** [v == s] for a string [s] *)
Definition py_eq_str (v : pyval) (s : string) : bool :=
  match v with
  | PStr s' => String.eqb s' s
  | _ => false
  end.

(** The truth value of [v], as [if v:] takes it. *)
Definition py_truthy (v : pyval) : bool :=
  match v with
  | PNone => false
  | PBool b => b
  | PInt z => negb (z =? 0)
  | PStr s => negb (String.eqb s "")
  | PList l => match l with [] => false | _ => true end
  | PDict d => match d with [] => false | _ => true end
  end.

(** [for x in l: body(x)] *)
Fixpoint for_each {A : Type} (l : list A) (body : A -> M unit) : M unit :=
  match l with
  | [] => ret tt
  | x :: l' => body x ;;; for_each l' body
  end.

(** All-or-nothing concatenation of the pieces of a generator. *)
Fixpoint concat_options {A : Type} (l : list (option (list A)))
  : option (list A) :=
  match l with
  | [] => Some []
  | None :: _ => None
  | Some x :: l' =>
      match concat_options l' with
      | Some r => Some (x ++ r)%list
      | None => None
      end
  end.

Record YandexDisk : Type := mkYandexDisk { _requester : Requester }.

Definition _SLEEP : Z := 3.

Definition folder_exists_text : string :=
  "уже существует папка с таким именем".

Section Client.

Variable server : Server.
Variable repr_str : string -> string.
Variable fs : FileSystem.
(** [json.dumps] *)
Variable json_dumps : pyval -> string.

(** [YandexDisk.get_meta_info] *)
Definition get_meta_info (self : YandexDisk) (path : string)
    (sort limit offset fields preview_size preview_crop : pyval)
    (trash : bool) : M pyval :=
  let ps := [ ("path", PStr path);
              ("sort", sort);
              ("limit", limit);
              ("offset", offset);
              ("fields", fields);
              ("preview_size", preview_size);
              ("preview_crop", preview_crop) ] in
  response <- Requester_get server (_requester self)
                ("disk/" ++ (if trash then "trash/" else "") ++ "resources")
                (Some ps) no_kwargs ;;
  lift (json response).

(** [YandexDisk.set_meta_to_resource] *)
Definition set_meta_to_resource (self : YandexDisk) (path : string)
    (data fields : pyval) : M pyval :=
  let url_params := [("path", PStr path)] in
  let url_params := if py_truthy fields
                    then dict_set url_params "fields" fields
                    else url_params in
  let params_string := urlencode repr_str url_params in
  response <- Requester_patch server (_requester self)
                ("disk/resources/?" ++ params_string)
                (mkKwargs None
                   (Some (json_dumps (PDict [("custom_properties", data)])))
                   None [] false false false) ;;
  lift (json response).

(** [YandexDisk._is_same_file] *)
Definition _is_same_file (self : YandexDisk) (fileobject : nat)
    (path : string) : M bool :=
  found <- try_except
             (file_meta_info <- get_meta_info self path PNone PNone PNone
                                  (PList [PStr "md5"]) PNone PNone false ;;
              ret (Some file_meta_info))
             NotFoundError
             (fun _ => ret None) ;;
  match found with
  | None => ret false
  | Some file_meta_info =>
      bytes <- file_read fileobject ;;
      let current_file_md5 := md5_hexdigest bytes in
      remote <- lift (py_getitem file_meta_info "md5") ;;
      ret (py_eq_str remote current_file_md5)
  end.

(** [YandexDisk.upload_file] *)
Definition upload_file (self : YandexDisk) (file_object : nat)
    (path : string) (overwrite skip_exists : bool) : M bool :=
  same <- (if (overwrite && skip_exists)%bool
           then _is_same_file self file_object path
           else ret false) ;;
  if same then ret true
  else
    upload_path_url <- Requester_get server (_requester self)
                         "disk/resources/upload"
                         (Some [("path", PStr path);
                                ("overwrite", PBool overwrite)])
                         no_kwargs ;;
    body <- lift (json upload_path_url) ;;
    href <- lift (py_getitem body "href") ;;
    u <- lift (as_url href) ;;
    Requester_put server (_requester self) u
      (mkKwargs None None None [("file", file_object)] false true false) ;;;
    ret true.

(** [YandexDisk.create_folder] *)
Definition create_folder (self : YandexDisk) (path : string) (fields : pyval)
  : M pyval :=
  let params_string :=
    urlencode repr_str [("path", PStr path); ("fields", fields)] in
  response <- Requester_put server (_requester self)
                ("disk/resources/?" ++ params_string) no_kwargs ;;
  lift (json response).

(** [YandexDisk._iter_directory_content], the items in the order the
    generator yields them: the file system is taken not to change during
    the walk, so the items can be collected before the loop of
    [upload_directory] consumes them.  [fuel] bounds the depth of the
    recursion. *)
Fixpoint _iter_directory_content (fuel : nat) (path : string)
    (start_path : option string) : option (list (bool * string * string)) :=
  match fuel with
  | O => None
  | S fuel' =>
      let start_path := match start_path with
                        | None => path
                        | Some s => s
                        end in
      let path_list := glob fs path in
      concat_options
        (map (fun path_item =>
                let related_path := re_sub_start_path start_path path_item in
                let is_directory := isdir fs path_item in
                match _iter_directory_content fuel'
                        (os_path_join path_item "*") (Some start_path) with
                | Some below =>
                    Some ((is_directory, path_item, related_path) :: below)
                | None => None
                end)
           path_list)
  end.

(** The body of the loop of [upload_directory] for one yielded item. *)
Definition upload_item (self : YandexDisk) (path : string)
    (overwrite skip_exists : bool) (item : bool * string * string) : M unit :=
  let '(is_directory, item_path, related_path) := item in
  if String.eqb related_path "" then ret tt
  else
    let disk_path := os_path_join path related_path in
    if is_directory then
      try_except
        (create_folder self disk_path PNone ;;; ret tt)
        DiskPathError
        (fun message =>
           if negb (is_substring folder_exists_text (py_str repr_str message))
           then raise (ApiError DiskPathError message)
           else ret tt)
    else
      f <- open_rb fs item_path ;;
      upload_file self f disk_path overwrite skip_exists ;;;
      ret tt.

(** [YandexDisk.upload_directory] *)
Definition upload_directory (fuel : nat) (self : YandexDisk)
    (local_path path : string) (overwrite skip_exists : bool) : P unit :=
  match _iter_directory_content fuel local_path None with
  | None => still_running
  | Some items =>
      terminating (for_each items (upload_item self path overwrite skip_exists))
  end.

(** The [while True] loop of [_waiting_for_finish]. *)
Fixpoint poll_loop (fuel : nat) (self : YandexDisk) (check_status_url : pyval)
    (sleep : Z) : P Response :=
  match fuel with
  | O => still_running
  | S fuel' =>
      _ <~ time_sleep sleep ;;
      u <~ lift (as_url check_status_url) ;;
      response <~ Requester_get server (_requester self) u None
                    (mkKwargs None None None [] false true false) ;;
      if status_code response =? STATUS_OK then
        body <~ lift (json response) ;;
        status <~ lift (py_getitem body "status") ;;
        if py_eq_str status "success" then terminating (ret response)
        else poll_loop fuel' self check_status_url sleep
      else poll_loop fuel' self check_status_url sleep
  end.

(** [sleep or self._SLEEP] *)
Definition sleep_or_default (sleep : option Z) : Z :=
  match sleep with
  | None => _SLEEP
  | Some 0 => _SLEEP
  | Some s => s
  end.

(** [YandexDisk._waiting_for_finish] *)
Definition _waiting_for_finish (fuel : nat) (self : YandexDisk)
    (response : Response) (wait_for_finish : bool) (sleep : option Z)
  : P Response :=
  if (wait_for_finish && (status_code response =? STATUS_ACCEPTED))%bool then
    body <~ lift (json response) ;;
    check_status_url <~ lift (py_getitem body "href") ;;
    poll_loop fuel self check_status_url (sleep_or_default sleep)
  else terminating (ret response).

(** [YandexDisk.copy_resource] *)
Definition copy_resource (fuel : nat) (self : YandexDisk)
    (from_path to_path : string) (overwrite : bool) (fields : pyval)
    (wait_for_finish : bool) (sleep : option Z) : P pyval :=
  let params_string :=
    urlencode repr_str
      [ ("from", PStr from_path);
        ("path", PStr to_path);
        ("overwrite", PBool overwrite);
        ("fields", fields) ] in
  response <~ Requester_post server (_requester self)
                ("disk/resources/copy?" ++ params_string) no_kwargs ;;
  pbind (_waiting_for_finish fuel self response wait_for_finish sleep)
    (fun finished => terminating (lift (json finished))).

(** [YandexDisk.get_disk_info] *)
Definition get_disk_info (self : YandexDisk) : M pyval :=
  response <- Requester_get server (_requester self) "disk/" None no_kwargs ;;
  lift (json response).

(** [YandexDisk.get_files_list] *)
Definition get_files_list (self : YandexDisk)
    (limit offset media_type fields preview_size preview_crop : pyval)
  : M pyval :=
  let ps := [ ("limit", limit);
              ("offset", offset);
              ("fields", fields);
              ("preview_size", preview_size);
              ("preview_crop", preview_crop);
              ("media_type", media_type) ] in
  response <- Requester_get server (_requester self) "disk/resources/files"
                (Some ps) no_kwargs ;;
  lift (json response).

(** [YandexDisk.get_last_uploaded] *)
Definition get_last_uploaded (self : YandexDisk)
    (limit media_type fields preview_size preview_crop : pyval) : M pyval :=
  let ps := [ ("limit", limit);
              ("fields", fields);
              ("preview_size", preview_size);
              ("preview_crop", preview_crop);
              ("media_type", media_type) ] in
  response <- Requester_get server (_requester self) "disk/resources/files"
                (Some ps) no_kwargs ;;
  lift (json response).

(** [YandexDisk.upload_file_from_url] *)
Definition upload_file_from_url (fuel : nat) (self : YandexDisk)
    (source path : string) (fields : pyval) (disable_redirects : bool)
    (wait_for_finish : bool) (sleep : option Z) : P pyval :=
  let params_string :=
    urlencode repr_str
      [ ("url", PStr source);
        ("path", PStr path);
        ("fields", fields);
        ("disable_redirects", PBool disable_redirects) ] in
  response <~ Requester_post server (_requester self)
                ("disk/resources/upload?" ++ params_string) no_kwargs ;;
  pbind (_waiting_for_finish fuel self response wait_for_finish sleep)
    (fun finished => terminating (lift (json finished))).

(** [YandexDisk.download_file] *)
Definition download_file (self : YandexDisk) (path : string) (stream : bool)
  : M string :=
  url_response <- Requester_get server (_requester self)
                    "disk/resources/download"
                    (Some [("path", PStr path)]) no_kwargs ;;
  body <- lift (json url_response) ;;
  href <- lift (py_getitem body "href") ;;
  u <- lift (as_url href) ;;
  response <- Requester_get server (_requester self) u None
                (mkKwargs None None None [] stream true false) ;;
  ret (content response).

(** [YandexDisk.move_resource] *)
Definition move_resource (fuel : nat) (self : YandexDisk)
    (from_path to_path : string) (overwrite : bool)
    (wait_for_finish : bool) (sleep : option Z) : P pyval :=
  let params_string :=
    urlencode repr_str
      [ ("from", PStr from_path);
        ("path", PStr to_path);
        ("overwrite", PBool overwrite) ] in
  response <~ Requester_post server (_requester self)
                ("disk/resources/move?" ++ params_string) no_kwargs ;;
  pbind (_waiting_for_finish fuel self response wait_for_finish sleep)
    (fun finished => terminating (lift (json finished))).

(** [YandexDisk.delete_resource] *)
Definition delete_resource (fuel : nat) (self : YandexDisk) (path : string)
    (permanently : bool) (wait_for_finish : bool) (sleep : option Z)
  : P bool :=
  let params_string :=
    urlencode repr_str
      [("path", PStr path); ("permanently", PBool permanently)] in
  response <~ Requester_delete server (_requester self)
                ("disk/resources?" ++ params_string) no_kwargs ;;
  pbind (_waiting_for_finish fuel self response wait_for_finish sleep)
    (fun _ => terminating (ret true)).

(** [YandexDisk.publish_resource] *)
Definition publish_resource (self : YandexDisk) (path : string) : M pyval :=
  let params_string := urlencode repr_str [("path", PStr path)] in
  response <- Requester_put server (_requester self)
                ("disk/resources/publish?" ++ params_string) no_kwargs ;;
  lift (json response).

(** [YandexDisk.unpublish_resource] *)
Definition unpublish_resource (self : YandexDisk) (path : string) : M pyval :=
  let params_string := urlencode repr_str [("path", PStr path)] in
  response <- Requester_put server (_requester self)
                ("disk/resources/unpublish?" ++ params_string) no_kwargs ;;
  lift (json response).

(** [YandexDisk.empty_trash] *)
Definition empty_trash (fuel : nat) (self : YandexDisk) (path : pyval)
    (wait_for_finish : bool) (sleep : option Z) : P bool :=
  let path_param :=
    if py_truthy path then "?" ++ urlencode repr_str [("path", path)]
    else "" in
  response <~ Requester_delete server (_requester self)
                ("disk/trash/resources/" ++ path_param) no_kwargs ;;
  pbind (_waiting_for_finish fuel self response wait_for_finish sleep)
    (fun _ => terminating (ret true)).

(** [YandexDisk.restore_from_trash] *)
Definition restore_from_trash (fuel : nat) (self : YandexDisk)
    (path : string) (name : pyval) (overwrite : bool) : P pyval :=
  let params_string :=
    urlencode repr_str
      [ ("path", PStr path);
        ("name", name);
        ("overwrite", PBool overwrite) ] in
  response <~ Requester_put server (_requester self)
                ("disk/trash/resources/restore?" ++ params_string)
                no_kwargs ;;
  pbind (_waiting_for_finish fuel self response true None)
    (fun finished => terminating (lift (json finished))).

End Client.

(** ** Definitions used in the statements *)

(** *** A local file system given as a tree *)

(** A directory lists its entries in the order the operating system
    reports them. *)
Inductive fsnode : Type :=
| FsFile (bytes : string)
| FsDir (entries : list (string * fsnode)).

(** [s.split('/')] without the empty components. *)
Fixpoint split_path_from (current : string) (s : string) : list string :=
  match s with
  | EmptyString => if String.eqb current "" then [] else [current]
  | String c s' =>
      if Ascii.eqb c "/" then
        if String.eqb current "" then split_path_from "" s'
        else current :: split_path_from "" s'
      else split_path_from (current ++ String c "") s'
  end.

Definition split_path (s : string) : list string := split_path_from "" s.

Fixpoint fs_find (components : list string) (node : fsnode) : option fsnode :=
  match components with
  | [] => Some node
  | c :: rest =>
      match node with
      | FsDir entries =>
          match dict_get entries c with
          | Some child => fs_find rest child
          | None => None
          end
      | FsFile _ => None
      end
  end.

(** The pattern without its last two characters when these are [/*]. *)
Fixpoint strip_star (s : string) : option string :=
  match s with
  | String "/" (String "*" EmptyString) => Some ""
  | String c s' =>
      match strip_star s' with
      | Some d => Some (String c d)
      | None => None
      end
  | EmptyString => None
  end.

Definition hidden (name : string) : bool :=
  match name with
  | String "." _ => true
  | _ => false
  end.

(** The file system interface over a tree whose root is the working
    directory, for the paths and patterns [upload_directory] builds from a
    local path without wildcard characters: [glob] of such a path gives
    the path when it exists (a path that ends in a slash has to be a
    directory), [glob] of [dir/*] the entries of [dir] that are not
    hidden, in listing order. *)
Definition tree_fs (cwd : fsnode) : FileSystem :=
  mkFileSystem
    (fun pattern =>
       match strip_star pattern with
       | Some dir =>
           match fs_find (split_path dir) cwd with
           | Some (FsDir entries) =>
               map (fun e => os_path_join dir (fst e))
                 (filter (fun e => negb (hidden (fst e))) entries)
           | _ => []
           end
       | None =>
           match fs_find (split_path pattern) cwd with
           | Some (FsDir _) => [pattern]
           | Some (FsFile _) =>
               if ends_with_slash pattern then [] else [pattern]
           | None => []
           end
       end)
    (fun path =>
       match fs_find (split_path path) cwd with
       | Some (FsDir _) => true
       | _ => false
       end)
    (fun path =>
       match fs_find (split_path path) cwd with
       | Some (FsFile bytes) => Some bytes
       | _ => None
       end).

(** The tree of the specification's example, [root/a.txt] and
    [root/sub/b.txt], in the two orders a listing of [root] can come in. *)
Definition example_tree : fsnode :=
  FsDir [("root", FsDir [("a.txt", FsFile "alpha");
                         ("sub", FsDir [("b.txt", FsFile "beta")])])].

Definition example_tree_sub_first : fsnode :=
  FsDir [("root", FsDir [("sub", FsDir [("b.txt", FsFile "beta")]);
                         ("a.txt", FsFile "alpha")])].

(** [repr] of a string that has no quote, backslash or control
    character in it. *)
Definition plain_repr (s : string) : string := "'" ++ s ++ "'".

(** The two things [upload_directory] does to the remote side: upload one
    local file to a remote path, and create one remote folder unless the
    server says it exists. *)
Definition upload_one (server : Server) (fs : FileSystem) (self : YandexDisk)
    (local remote : string) (overwrite skip_exists : bool) : M unit :=
  f <- open_rb fs local ;;
  upload_file server self f remote overwrite skip_exists ;;;
  ret tt.

(** The error [upload_directory] takes for "the folder is already there":
    a [DiskPathError] whose text holds the server's phrase. *)
Definition folder_exists_error (repr_str : string -> string) (e : exn) : bool :=
  match e with
  | ApiError DiskPathError message =>
      is_substring folder_exists_text (py_str repr_str message)
  | _ => false
  end.

Definition make_folder (server : Server) (repr_str : string -> string)
    (self : YandexDisk) (remote : string) : M unit :=
  fun w =>
    match create_folder server repr_str self remote PNone w with
    | (Ok _, w') => (Ok tt, w')
    | (Raise e, w') =>
        if folder_exists_error repr_str e then (Ok tt, w') else (Raise e, w')
    end.

(** A server for the upload examples: [meta] answers the metadata lookup,
    the request for an upload URL gets a link, everything else is
    created. *)
Definition upload_link : string :=
  "https://uploader1d.dst.yandex.net:443/upload-target/20230101T000000".

Definition upload_link_response : Response :=
  mkResponse 200 (Some (PDict [("href", PStr upload_link);
                               ("method", PStr "PUT");
                               ("templated", PBool false)])) "".

Definition created_response : Response :=
  mkResponse 201
    (Some (PDict [("href",
                   PStr "https://cloud-api.yandex.net/v1/disk/resources");
                  ("method", PStr "GET");
                  ("templated", PBool false)])) "".

Definition disk_server (meta : Response) : Server :=
  fun _ r =>
    if String.eqb (url r) "https://cloud-api.yandex.net/v1/disk/resources"
    then meta
    else if String.eqb (url r)
              "https://cloud-api.yandex.net/v1/disk/resources/upload"
    then upload_link_response
    else created_response.

(** Metadata that gives the MD5 digest of [hello world], and metadata
    that gives the digest of the empty file. *)
Definition same_md5_response : Response :=
  mkResponse 200
    (Some (PDict [("md5", PStr "5eb63bbbe01eeed093cb22bb8f5acdc3")])) "".

Definition other_md5_response : Response :=
  mkResponse 200
    (Some (PDict [("md5", PStr "d41d8cd98f00b204e9800998ecf8427e")])) "".

(** A 409 that says the folder exists. *)
Definition folder_exists_message : string :=
  "По указанному пути уже существует папка с таким именем.".

Definition folder_exists_response : Response :=
  mkResponse 409
    (Some (PDict [("message", PStr folder_exists_message);
                  ("error", PStr "DiskPathPointsToExistentDirectoryError")]))
    "".




(** The URL and the headers a wrapped call hands to the transport. *)
Definition request_url (kw : Kwargs) (u : string) : string :=
  if absolute_url kw then u else _disk_url ++ u.

Definition request_headers (self : Requester) (kw : Kwargs)
  : list (string * string) :=
  let hs := match kw_headers kw with
            | Some hs => hs
            | None => []
            end in
  if without_auth kw then hs
  else dict_set hs "Authorization" ("OAuth " ++ _token self).

(** The request a wrapped call builds once the transport has read
    [payload] from the file objects. *)
Definition request_of (self : Requester) (method : Verb) (u : string)
    (kw : Kwargs) (payload : list (string * string)) : Request :=
  mkRequest method (request_url kw u) (request_headers self kw)
    (kw_params kw) (kw_data kw) payload (kw_stream kw).

(** The error table, written out code by code as the specification lists
    it (its [DiskPathConflict] is the class [DiskPathError]). *)
Definition spec_error_kind (code : Z) : ErrorKind :=
  if code =? 401 then UnauthorizedError
  else if code =? 403 then ForbiddenError
  else if code =? 404 then NotFoundError
  else if code =? 409 then DiskPathError
  else if code =? 412 then PreconditionFailed
  else if code =? 413 then PayloadTooLarge
  else if code =? 500 then InternalServerError
  else if code =? 503 then ServiceUnavailable
  else if code =? 507 then InsufficientStorageError
  else RequestError.

(** What a computation appended to the log of [w] to reach [w']. *)
Definition new_events (w w' : World) : list Event :=
  skipn (List.length (log w)) (log w').

(** What a wrapped call makes of the response the transport returned. *)
Definition handle_status (response : Response) : result Response :=
  if in_statuses (status_code response) OK_STATUSES then Ok response
  else
    match json response with
    | Raise e => Raise e
    | Ok response_data =>
        match py_getitem response_data "message" with
        | Raise e => Raise e
        | Ok message =>
            Raise (ApiError (spec_error_kind (status_code response)) message)
        end
    end.

Definition empty_world : World := mkWorld [] [].

Definition demo_requester : Requester := mkRequester "t0k3n".

(** A server that answers every request with the same response. *)
Definition constant_server (r : Response) : Server := fun _ _ => r.

Definition not_found_response : Response :=
  mkResponse 404 (Some (PDict [("message", PStr "Resource not found")])) "".

(** 204 No Content: a success whose body is not JSON at all. *)
Definition no_content_response : Response := mkResponse 204 None "".

Definition demo_request : Request :=
  mkRequest GET "https://cloud-api.yandex.net/v1/disk/"
    [("Authorization", "OAuth t0k3n")] None None [] false.

(** The request one poll of [_waiting_for_finish] sends to [u]. *)
Definition poll_request (self : YandexDisk) (u : string) : Request :=
  mkRequest GET u
    [("Authorization", "OAuth " ++ _token (_requester self))]
    None None [] false.

(** [n] complete sleep-and-poll cycles. *)
Fixpoint poll_cycles (secs : Z) (r : Request) (n : nat) : list Event :=
  match n with
  | O => []
  | S n' => EvSleep secs :: EvRequest r :: poll_cycles secs r n'
  end.

(** What the server answers to poll number [i] (from 0) of a wait that
    started with the log [l]: [i] cycles and one more sleep have passed. *)
Definition poll_response (server : Server) (l : list Event) (secs : Z)
    (r : Request) (i : nat) : Response :=
  server (l ++ poll_cycles secs r i ++ [EvSleep secs])%list r.

(** A poll that ends the wait: HTTP 200 with [status == "success"]. *)
Definition poll_succeeded (r : Response) : Prop :=
  status_code r = 200 /\
  exists body,
    json r = Ok body /\ py_getitem body "status" = Ok (PStr "success").

(** A poll that reports the operation as not yet finished: one of the
    other success codes, or HTTP 200 with a [status] field that is not
    ["success"]. *)
Definition poll_pending (r : Response) : Prop :=
  In (status_code r) [201; 202; 204] \/
  (status_code r = 200 /\
   exists body status,
     json r = Ok body /\ py_getitem body "status" = Ok status /\
     status <> PStr "success").

(** The shape of what a wait adds to the log: sleeps of [secs], each
    followed by one request, the last sleep possibly without its
    request. *)
Inductive poll_trace (secs : Z) : list Event -> Prop :=
| poll_trace_nil : poll_trace secs []
| poll_trace_sleep : poll_trace secs [EvSleep secs]
| poll_trace_cycle (r : Request) (rest : list Event) :
    poll_trace secs rest ->
    poll_trace secs (EvSleep secs :: EvRequest r :: rest).

(** A server that works through a script: request number [i] (from 0)
    gets the [i]-th response, every later one gets [last]. *)
Fixpoint count_requests (l : list Event) : nat :=
  match l with
  | [] => O
  | EvRequest _ :: l' => S (count_requests l')
  | EvSleep _ :: l' => count_requests l'
  end.

Definition scripted_server (script : list Response) (last : Response)
  : Server :=
  fun l _ => nth (count_requests l) script last.

Definition demo_disk : YandexDisk := mkYandexDisk demo_requester.

Definition operation_url : string :=
  "https://cloud-api.yandex.net/v1/disk/operations/33ca7d03ab21ct41b4a40182".

(** 202 Accepted with the link to the operation's status. *)
Definition accepted_response : Response :=
  mkResponse 202 (Some (PDict [("href", PStr operation_url);
                               ("method", PStr "GET");
                               ("templated", PBool false)])) "".

Definition in_progress_response : Response :=
  mkResponse 200 (Some (PDict [("status", PStr "in-progress")])) "".

Definition success_response : Response :=
  mkResponse 200 (Some (PDict [("status", PStr "success")])) "".

Definition server_error_response : Response :=
  mkResponse 500 (Some (PDict [("message", PStr "Internal Server Error")])) "".

(** The headers of an authenticated call that passes none of its own. *)
Definition auth_headers (self : YandexDisk) : list (string * string) :=
  [("Authorization", "OAuth " ++ _token (_requester self))].

(** The three requests of an upload: the metadata lookup restricted to
    the [md5] field, the request for an upload URL, and the [PUT] of the
    bytes the transport read from the file object. *)
Definition meta_request (self : YandexDisk) (path : string) : Request :=
  mkRequest GET "https://cloud-api.yandex.net/v1/disk/resources"
    (auth_headers self)
    (Some [ ("path", PStr path);
            ("sort", PNone);
            ("limit", PNone);
            ("offset", PNone);
            ("fields", PList [PStr "md5"]);
            ("preview_size", PNone);
            ("preview_crop", PNone) ])
    None [] false.

Definition upload_url_request (self : YandexDisk) (path : string)
    (overwrite : bool) : Request :=
  mkRequest GET "https://cloud-api.yandex.net/v1/disk/resources/upload"
    (auth_headers self)
    (Some [("path", PStr path); ("overwrite", PBool overwrite)])
    None [] false.

Definition put_file_request (self : YandexDisk) (href bytes : string)
  : Request :=
  mkRequest PUT href (auth_headers self) None None [("file", bytes)] false.

(** The request [create_folder] sends for [/dest/sub]. *)
Definition create_sub_request (self : YandexDisk) : Request :=
  mkRequest PUT
    ("https://cloud-api.yandex.net/v1/disk/resources/"
       ++ "?path=%2Fdest%2Fsub&fields=None")
    (auth_headers self) None None [] false.

(** [True] once the call went through, the exception otherwise. *)
Definition true_if_ok {A : Type} (r : result A) : result bool :=
  match r with
  | Ok _ => Ok true
  | Raise e => Raise e
  end.

(** Computations that only ever append to the log. *)
Definition extends_log {A : Type} (m : M A) : Prop :=
  forall w, exists es, log (snd (m w)) = (log w ++ es)%list.

(** Computations whose first mark on the log is [e]. *)
Definition starts_with {A : Type} (e : Event) (m : M A) (w : World) : Prop :=
  exists es, log (snd (m w)) = (log w ++ e :: es)%list.

(** A request whose caller passed headers of its own and asked for no
    authentication. *)
Definition traced_request : Request :=
  mkRequest GET "https://cloud-api.yandex.net/v1/disk/"
    [("Authorization", "Basic Zm9v"); ("X-Trace", "1")] None None [] false.

(** A poll answer for an operation that failed on the server. *)
Definition failed_response : Response :=
  mkResponse 200 (Some (PDict [("status", PStr "failed")])) "".

(** More answers for the examples: a 403, the metadata of a folder
    (which has no [md5]), and a server that hands out a download link and
    then the file. *)
Definition forbidden_response : Response :=
  mkResponse 403 (Some (PDict [("message", PStr "Forbidden")])) "".

Definition folder_metadata_response : Response :=
  mkResponse 200 (Some (PDict [])) "".

Definition download_link : string :=
  "https://downloader.disk.yandex.ru/disk/a.txt".

Definition download_server : Server :=
  fun _ r =>
    if String.eqb (url r)
         "https://cloud-api.yandex.net/v1/disk/resources/download"
    then mkResponse 200 (Some (PDict [("href", PStr download_link)])) ""
    else mkResponse 200 None "alpha".

(** [s.startswith('*')] *)
Definition starts_with_star (s : string) : bool :=
  match s with
  | String "*" _ => true
  | _ => false
  end.

(** The characters [quote_plus] writes: the ones it keeps, [+] and [%]. *)
Definition url_safe (c : ascii) : bool :=
  (always_safe c || Ascii.eqb c "+" || Ascii.eqb c "%")%bool.

Fixpoint string_forall (p : ascii -> bool) (s : string) : bool :=
  match s with
  | EmptyString => true
  | String c s' => (p c && string_forall p s')%bool
  end.

(** [s.count(c)] for a character [c]. *)
Fixpoint count_char (c : ascii) (s : string) : nat :=
  match s with
  | EmptyString => O
  | String c' s' =>
      if Ascii.eqb c' c then S (count_char c s') else count_char c s'
  end.



(** The request [copy_resource] opens with. *)
Definition copy_request (repr_str : string -> string) (self : YandexDisk)
    (from_path to_path : string) (overwrite : bool) (fields : pyval)
  : Request :=
  mkRequest POST
    ("https://cloud-api.yandex.net/v1/disk/resources/copy?"
       ++ urlencode repr_str
            [ ("from", PStr from_path);
              ("path", PStr to_path);
              ("overwrite", PBool overwrite);
              ("fields", fields) ])
    (auth_headers self) None None [] false.

(** The request [restore_from_trash] opens with. *)
Definition restore_request (repr_str : string -> string) (self : YandexDisk)
    (path : string) (name : pyval) (overwrite : bool) : Request :=
  mkRequest PUT
    ("https://cloud-api.yandex.net/v1/disk/trash/resources/restore?"
       ++ urlencode repr_str
            [ ("path", PStr path);
              ("name", name);
              ("overwrite", PBool overwrite) ])
    (auth_headers self) None None [] false.

(** A tree with a single file in a directory, its name free of
    metacharacters. *)
Definition lone_tree : fsnode :=
  FsDir [("drafts", FsDir [("README", FsFile "text")])].

(** * Properties *)

(** ** Basic facts *)

Lemma in_statuses_In (code : Z) (s : list Z) :
  in_statuses code s = true <-> In code s.
Proof.
  unfold in_statuses. rewrite existsb_exists. split.
  - intros [x [Hin Heq]]. apply Z.eqb_eq in Heq. now subst.
  - intros Hin. exists code. split; [assumption | apply Z.eqb_refl].
Qed.

Lemma dict_get_set_same {V : Type} (d : list (string * V)) (k : string)
    (v : V) :
  dict_get (dict_set d k v) k = Some v.
Proof.
  induction d as [| [k' v'] d IH]; simpl.
  - now rewrite String.eqb_refl.
  - destruct (String.eqb k' k) eqn:E; simpl; rewrite E;
      [reflexivity | exact IH].
Qed.

Lemma dict_get_set_other {V : Type} (d : list (string * V)) (k k2 : string)
    (v : V) :
  k2 <> k -> dict_get (dict_set d k v) k2 = dict_get d k2.
Proof.
  intros Hne. induction d as [| [k' v'] d IH]; simpl.
  - destruct (String.eqb k k2) eqn:E; [| reflexivity].
    apply String.eqb_eq in E. congruence.
  - destruct (String.eqb k' k) eqn:E; simpl.
    + apply String.eqb_eq in E. subst k'.
      destruct (String.eqb k k2) eqn:E2; [| reflexivity].
      apply String.eqb_eq in E2. congruence.
    + destruct (String.eqb k' k2); [reflexivity | exact IH].
Qed.

Lemma code_lookup_spec (code : Z) :
  match code_lookup _CODE_TO_ERROR code with
  | Some kind => kind
  | None => RequestError
  end = spec_error_kind code.
Proof.
  unfold spec_error_kind, _CODE_TO_ERROR, code_lookup.
  rewrite !(Z.eqb_sym _ code).
  repeat match goal with
         | |- context [code =? ?c] =>
             destruct (Z.eqb_spec code c); [subst; reflexivity |]
         end.
  reflexivity.
Qed.

Section RequesterFacts.

Variable server : Server.
Variable self : Requester.

Lemma wrap_unfold (method : Verb) (u : string) (kw : Kwargs) (w : World) :
  wrap server self method u kw w =
  match call_transport server method (request_url kw u)
          (request_headers self kw) kw w with
  | (Ok response, w') => (handle_status response, w')
  | (Raise e, w') => (Raise e, w')
  end.
Proof.
  unfold wrap, bind, request_url, request_headers, handle_status.
  destruct (call_transport _ _ _ _ _ w) as [[response | e] w']; [| reflexivity].
  destruct (in_statuses _ _); [reflexivity |].
  unfold lift, json. destruct (json_body response) as [d |]; [| reflexivity].
  rewrite <- code_lookup_spec.
  destruct (code_lookup _ _); destruct (py_getitem d "message"); reflexivity.
Qed.

Lemma handle_status_ok (response : Response) :
  In (status_code response) OK_STATUSES ->
  handle_status response = Ok response.
Proof.
  intros H. apply in_statuses_In in H. unfold handle_status. now rewrite H.
Qed.

Lemma handle_status_error (response : Response) (body message : pyval) :
  ~ In (status_code response) OK_STATUSES ->
  json response = Ok body ->
  py_getitem body "message" = Ok message ->
  handle_status response =
  Raise (ApiError (spec_error_kind (status_code response)) message).
Proof.
  intros Hnot Hjson Hmsg. unfold handle_status.
  destruct (in_statuses (status_code response) OK_STATUSES) eqn:E.
  - apply in_statuses_In in E. contradiction.
  - now rewrite Hjson, Hmsg.
Qed.

(** A call that hands no file object to the transport always reaches the
    server. *)
Lemma wrap_no_files (method : Verb) (u : string) (kw : Kwargs) (w : World) :
  kw_files kw = [] ->
  let r := request_of self method u kw [] in
  wrap server self method u kw w =
  (handle_status (server (log w) r),
   mkWorld (log w ++ [EvRequest r])%list (fobjs w)).
Proof.
  intros Hfiles r. rewrite wrap_unfold.
  unfold call_transport, bind. rewrite Hfiles. reflexivity.
Qed.


Lemma file_read_log (h : nat) (w : World) :
  log (snd (file_read h w)) = log w.
Proof.
  unfold file_read. destruct (nth_error (fobjs w) h); reflexivity.
Qed.

Lemma read_files_log (fs : list (string * nat)) (w : World) :
  log (snd (read_files fs w)) = log w.
Proof.
  revert w. induction fs as [| [name h] fs IH]; intros w; [reflexivity |].
  simpl. unfold bind.
  pose proof (file_read_log h w) as Hr.
  destruct (file_read h w) as [[bytes | e] w1]; simpl in Hr; [| exact Hr].
  specialize (IH w1).
  destruct (read_files fs w1) as [[rest | e] w2]; simpl in *; congruence.
Qed.

Lemma call_transport_log (method : Verb) (u : string)
    (hs : list (string * string)) (kw : Kwargs) (w w' : World)
    (response : Response) :
  call_transport server method u hs kw w = (Ok response, w') ->
  exists r,
    log w' = (log w ++ [EvRequest r])%list /\
    response = server (log w) r /\
    verb r = method /\ url r = u /\ headers r = hs /\
    params r = kw_params kw /\ data r = kw_data kw /\ stream r = kw_stream kw.
Proof.
  unfold call_transport, bind. intros H.
  pose proof (read_files_log (kw_files kw) w) as Hlog.
  destruct (read_files (kw_files kw) w) as [[payload | e] w1]; simpl in Hlog;
    [| discriminate].
  injection H as Hresp Hw. subst w'. simpl.
  rewrite Hlog in *. eexists. split; [reflexivity |].
  split; [now symmetry |]. simpl. repeat split.
Qed.

(** C1. A response whose status code is outside {200, 201, 202, 204} and
    whose body parses to an object with a [message] field makes the wrapped
    call raise the error class the specification's table gives for that
    code (401 Unauthorized, 403 Forbidden, 404 NotFound, 409 DiskPath,
    412 PreconditionFailed, 413 PayloadTooLarge, 500 InternalServerError,
    503 ServiceUnavailable, 507 InsufficientStorage, anything else the
    generic RequestError), carrying that message. *)
Theorem wrap_raises_mapped_error (method : Verb) (u : string) (kw : Kwargs)
    (w w' : World) (response : Response) (body message : pyval) :
  call_transport server method (request_url kw u) (request_headers self kw)
    kw w = (Ok response, w') ->
  ~ In (status_code response) OK_STATUSES ->
  json response = Ok body ->
  py_getitem body "message" = Ok message ->
  wrap server self method u kw w =
    (Raise (ApiError (spec_error_kind (status_code response)) message), w').
Proof.
  intros Hcall Hstatus Hjson Hmsg.
  rewrite wrap_unfold, Hcall.
  now rewrite (handle_status_error response body message).
Qed.

(** C2. A response whose status code is one of 200, 201, 202, 204 is
    returned as it is, whatever its body holds (the body is never
    consulted). *)
Theorem wrap_returns_ok_response (method : Verb) (u : string) (kw : Kwargs)
    (w w' : World) (response : Response) :
  call_transport server method (request_url kw u) (request_headers self kw)
    kw w = (Ok response, w') ->
  In (status_code response) OK_STATUSES ->
  wrap server self method u kw w = (Ok response, w').
Proof.
  intros Hcall Hstatus. rewrite wrap_unfold, Hcall.
  now rewrite handle_status_ok.
Qed.

Lemma new_events_app (w : World) (l es : list Event) (fo : list FileObj) :
  l = log w -> new_events w (mkWorld (l ++ es)%list fo) = es.
Proof.
  intros ->. unfold new_events. simpl.
  rewrite skipn_app, skipn_all, Nat.sub_diag. reflexivity.
Qed.

Lemma new_events_log (w w' : World) (es : list Event) :
  log w' = (log w ++ es)%list -> new_events w w' = es.
Proof.
  intros H. unfold new_events. rewrite H.
  rewrite skipn_app, skipn_all, Nat.sub_diag. reflexivity.
Qed.

Lemma wrap_log (method : Verb) (u : string) (kw : Kwargs) (w : World) :
  new_events w (snd (wrap server self method u kw w)) = [] \/
  exists r,
    new_events w (snd (wrap server self method u kw w)) = [EvRequest r] /\
    verb r = method /\ url r = request_url kw u /\
    headers r = request_headers self kw.
Proof.
  rewrite wrap_unfold.
  destruct (call_transport _ _ _ _ _ w) as [[response | e] w'] eqn:Hcall.
  - right. apply call_transport_log in Hcall.
    destruct Hcall as (r & Hlog & _ & Hv & Hu & Hh & _).
    exists r. repeat split; try assumption.
    now apply new_events_log.
  - left. unfold call_transport, bind in Hcall.
    pose proof (read_files_log (kw_files kw) w) as Hlog.
    destruct (read_files (kw_files kw) w) as [[payload | e'] w1];
      [discriminate |].
    injection Hcall as _ <-. simpl in *. apply new_events_log.
    now rewrite app_nil_r.
Qed.

(** C7. Every request a wrapped call hands to the transport goes to the
    base endpoint followed by the given path, or to the given URL as it is
    when [absolute_url] is set; unless [without_auth] is set its headers
    hold [Authorization: OAuth <token>]. *)
Theorem wrap_request_url_and_auth (method : Verb) (u : string) (kw : Kwargs)
    (w : World) (r : Request) :
  In (EvRequest r) (new_events w (snd (wrap server self method u kw w))) ->
  url r = (if absolute_url kw
           then u
           else "https://cloud-api.yandex.net/v1/" ++ u) /\
  (without_auth kw = false ->
   dict_get (headers r) "Authorization" = Some ("OAuth " ++ _token self)).
Proof.
  intros Hin.
  destruct (wrap_log method u kw w) as [Hnil | (r' & Hone & _ & Hu & Hh)].
  - rewrite Hnil in Hin. contradiction.
  - rewrite Hone in Hin. destruct Hin as [Heq | []].
    injection Heq as <-. split; [exact Hu |].
    intros Hauth. rewrite Hh. unfold request_headers. rewrite Hauth.
    apply dict_get_set_same.
Qed.

End RequesterFacts.

Lemma wrap_raises_mapped_error_witness :
  wrap (constant_server not_found_response) demo_requester GET
    "disk/resources" no_kwargs empty_world =
  (Raise (ApiError NotFoundError (PStr "Resource not found")),
   mkWorld
     [EvRequest
        (mkRequest GET "https://cloud-api.yandex.net/v1/disk/resources"
           [("Authorization", "OAuth t0k3n")] None None [] false)]
     []).
Proof.
  apply (wrap_raises_mapped_error (constant_server not_found_response)
           demo_requester GET "disk/resources" no_kwargs empty_world _
           not_found_response
           (PDict [("message", PStr "Resource not found")])
           (PStr "Resource not found")).
  - reflexivity.
  - simpl. intros [H | [H | [H | [H | []]]]]; discriminate H.
  - reflexivity.
  - reflexivity.
Defined.

Lemma wrap_returns_ok_response_witness :
  wrap (constant_server no_content_response) demo_requester DELETE
    "disk/resources?path=%2Fa" no_kwargs empty_world =
  (Ok no_content_response,
   mkWorld
     [EvRequest
        (mkRequest DELETE
           "https://cloud-api.yandex.net/v1/disk/resources?path=%2Fa"
           [("Authorization", "OAuth t0k3n")] None None [] false)]
     []).
Proof.
  apply (wrap_returns_ok_response (constant_server no_content_response)
           demo_requester DELETE "disk/resources?path=%2Fa" no_kwargs
           empty_world _ no_content_response).
  - reflexivity.
  - simpl. right. right. right. left. reflexivity.
Defined.

Lemma wrap_request_url_and_auth_witness :
  url demo_request = "https://cloud-api.yandex.net/v1/disk/" /\
  (false = false ->
   dict_get (headers demo_request) "Authorization" = Some "OAuth t0k3n").
Proof.
  apply (wrap_request_url_and_auth (constant_server no_content_response)
           demo_requester GET "disk/" no_kwargs empty_world demo_request).
  simpl. left. reflexivity.
Defined.

(** ** The poller *)

Section PollerFacts.

Variable server : Server.
Variable self : YandexDisk.

Lemma py_eq_str_true (v : pyval) (s : string) :
  py_eq_str v s = true <-> v = PStr s.
Proof.
  destruct v; simpl; try (split; [discriminate | discriminate]).
  rewrite String.eqb_eq. split; [now intros -> | now intros [= ->]].
Qed.

(** One turn of the loop: sleep, poll, and go by what the executor makes
    of the response. *)
Lemma poll_loop_unfold (fuel : nat) (u : string) (secs : Z) (w : World) :
  0 <= secs ->
  let r := poll_request self u in
  let response := server (log w ++ [EvSleep secs])%list r in
  let w1 := mkWorld (log w ++ [EvSleep secs; EvRequest r])%list (fobjs w) in
  poll_loop server (S fuel) self (PStr u) secs w =
  match handle_status response with
  | Raise e => (Some (Raise e), w1)
  | Ok _ =>
      if status_code response =? STATUS_OK then
        match json response with
        | Raise e => (Some (Raise e), w1)
        | Ok body =>
            match py_getitem body "status" with
            | Raise e => (Some (Raise e), w1)
            | Ok status =>
                if py_eq_str status "success" then (Some (Ok response), w1)
                else poll_loop server fuel self (PStr u) secs w1
            end
        end
      else poll_loop server fuel self (PStr u) secs w1
  end.
Proof.
  intros Hsecs r response w1.
  assert (Hw1 : w1 = mkWorld ((log w ++ [EvSleep secs]) ++ [EvRequest r])%list
                       (fobjs w)).
  { unfold w1. now rewrite <- app_assoc. }
  cbn [poll_loop]. unfold pbind at 1. unfold terminating at 1.
  unfold time_sleep.
  destruct (Z.ltb_spec secs 0) as [Hlt | _]; [lia |].
  unfold pbind at 1. unfold terminating at 1. unfold lift at 1. cbn [as_url].
  unfold pbind at 1. unfold terminating at 1. unfold Requester_get.
  cbn [kw_params kw_data kw_headers kw_files kw_stream absolute_url
       without_auth].
  rewrite wrap_no_files by reflexivity.
  change (request_of (_requester self) GET u
            (mkKwargs None None None [] false true false) [])
    with r.
  cbn [log fobjs]. fold response. rewrite <- Hw1.
  destruct (handle_status response) eqn:Hh; [| reflexivity].
  assert (a = response) as ->.
  { unfold handle_status in Hh.
    destruct (in_statuses _ _); [congruence |].
    destruct (json response); [| discriminate].
    destruct (py_getitem _ _); discriminate. }
  destruct (status_code response =? STATUS_OK); [| reflexivity].
  unfold pbind, terminating, lift.
  destruct (json response) as [body | e]; [| reflexivity].
  destruct (py_getitem body "status") as [status | e]; [| reflexivity].
  destruct (py_eq_str status "success"); reflexivity.
Qed.

Lemma poll_loop_success (fuel : nat) (u : string) (secs : Z) (w : World) :
  0 <= secs ->
  let r := poll_request self u in
  let response := server (log w ++ [EvSleep secs])%list r in
  poll_succeeded response ->
  poll_loop server (S fuel) self (PStr u) secs w =
  (Some (Ok response),
   mkWorld (log w ++ [EvSleep secs; EvRequest r])%list (fobjs w)).
Proof.
  intros Hsecs r response [Hcode (body & Hjson & Hst)].
  rewrite poll_loop_unfold by assumption. fold r. fold response.
  rewrite handle_status_ok
    by (rewrite Hcode; simpl; left; reflexivity).
  rewrite Hcode, Hjson, Hst. reflexivity.
Qed.

Lemma poll_loop_pending (fuel : nat) (u : string) (secs : Z) (w : World) :
  0 <= secs ->
  let r := poll_request self u in
  let response := server (log w ++ [EvSleep secs])%list r in
  poll_pending response ->
  poll_loop server (S fuel) self (PStr u) secs w =
  poll_loop server fuel self (PStr u) secs
    (mkWorld (log w ++ [EvSleep secs; EvRequest r])%list (fobjs w)).
Proof.
  intros Hsecs r response Hpending.
  rewrite poll_loop_unfold by assumption. fold r. fold response.
  destruct Hpending as [Hin | (Hcode & body & status & Hjson & Hst & Hne)].
  - rewrite handle_status_ok
      by (simpl in *; unfold STATUS_OK, STATUS_CREATED, STATUS_ACCEPTED,
            STATUS_NO_CONTENT; tauto).
    assert (Hne : (status_code response =? STATUS_OK) = false).
    { apply Z.eqb_neq. unfold STATUS_OK. simpl in Hin.
      destruct Hin as [H | [H | [H | []]]]; rewrite <- H; discriminate. }
    now rewrite Hne.
  - rewrite handle_status_ok
      by (rewrite Hcode; simpl; left; reflexivity).
    rewrite Hcode, Hjson, Hst. cbn [Z.eqb STATUS_OK Pos.eqb].
    destruct (py_eq_str status "success") eqn:E; [| reflexivity].
    apply py_eq_str_true in E. contradiction.
Qed.

Lemma poll_loop_error (fuel : nat) (u : string) (secs : Z) (w : World)
    (body message : pyval) :
  0 <= secs ->
  let r := poll_request self u in
  let response := server (log w ++ [EvSleep secs])%list r in
  ~ In (status_code response) OK_STATUSES ->
  json response = Ok body ->
  py_getitem body "message" = Ok message ->
  poll_loop server (S fuel) self (PStr u) secs w =
  (Some (Raise (ApiError (spec_error_kind (status_code response)) message)),
   mkWorld (log w ++ [EvSleep secs; EvRequest r])%list (fobjs w)).
Proof.
  intros Hsecs r response Hnot Hjson Hmsg.
  rewrite poll_loop_unfold by assumption. fold r. fold response.
  now rewrite (handle_status_error response body message).
Qed.

Lemma world_eta (w : World) : mkWorld (log w ++ [])%list (fobjs w) = w.
Proof. destruct w. simpl. now rewrite app_nil_r. Qed.

Lemma poll_response_shift (l : list Event) (secs : Z) (r : Request) (i : nat) :
  poll_response server (l ++ [EvSleep secs; EvRequest r])%list secs r i =
  poll_response server l secs r (S i).
Proof.
  unfold poll_response. simpl. now rewrite <- app_assoc.
Qed.

(** The loop against a server that reports "not yet" [n] times and then
    success: with more than [n] turns of fuel it returns the response of
    poll [n]; with less it is still polling. *)
Lemma poll_loop_first_success (u : string) (secs : Z) (n : nat) :
  0 <= secs ->
  forall (fuel : nat) (w : World),
    let r := poll_request self u in
    (forall i, (i < n)%nat ->
               poll_pending (poll_response server (log w) secs r i)) ->
    poll_succeeded (poll_response server (log w) secs r n) ->
    poll_loop server fuel self (PStr u) secs w =
    if (n <? fuel)%nat
    then (Some (Ok (poll_response server (log w) secs r n)),
          mkWorld (log w ++ poll_cycles secs r (S n))%list (fobjs w))
    else (None, mkWorld (log w ++ poll_cycles secs r fuel)%list (fobjs w)).
Proof.
  intros Hsecs. induction n as [| n IH]; intros fuel w r Hpending Hsuccess.
  - destruct fuel as [| fuel].
    + simpl. unfold still_running. now rewrite world_eta.
    + change (0 <? S fuel)%nat with true. cbv iota.
      now apply poll_loop_success.
  - destruct fuel as [| fuel].
    + simpl. unfold still_running. now rewrite world_eta.
    + rewrite poll_loop_pending; [| assumption | apply (Hpending 0%nat); lia].
      fold r. rewrite IH; cbn [log fobjs].
      * change (S n <? S fuel)%nat with (n <? fuel)%nat.
        rewrite poll_response_shift.
        destruct (n <? fuel)%nat; simpl; now rewrite <- app_assoc.
      * intros i Hi. rewrite poll_response_shift. apply Hpending. lia.
      * now rewrite poll_response_shift.
Qed.

(** The loop against a server that reports "not yet" [n] times and then
    fails with an error status. *)
Lemma poll_loop_first_error (u : string) (secs : Z) (n : nat)
    (body message : pyval) :
  0 <= secs ->
  forall (fuel : nat) (w : World),
    let r := poll_request self u in
    let failed := poll_response server (log w) secs r n in
    (forall i, (i < n)%nat ->
               poll_pending (poll_response server (log w) secs r i)) ->
    ~ In (status_code failed) OK_STATUSES ->
    json failed = Ok body ->
    py_getitem body "message" = Ok message ->
    (n < fuel)%nat ->
    poll_loop server fuel self (PStr u) secs w =
    (Some (Raise (ApiError (spec_error_kind (status_code failed)) message)),
     mkWorld (log w ++ poll_cycles secs r (S n))%list (fobjs w)).
Proof.
  intros Hsecs. induction n as [| n IH];
    intros fuel w r failed Hpending Hnot Hjson Hmsg Hfuel;
    (destruct fuel as [| fuel]; [lia |]).
  - now apply (poll_loop_error fuel u secs w body message).
  - rewrite poll_loop_pending; [| assumption | apply (Hpending 0%nat); lia].
    fold r. unfold failed in *. rewrite <- poll_response_shift in *.
    rewrite (IH fuel); cbn [log fobjs]; try assumption; try lia.
    + simpl. now rewrite <- app_assoc.
    + intros i Hi. rewrite poll_response_shift. apply Hpending. lia.
Qed.

Lemma waiting_enters_loop (fuel : nat) (response : Response) (body href : pyval)
    (sleep : option Z) (w : World) :
  status_code response = 202 ->
  json response = Ok body ->
  py_getitem body "href" = Ok href ->
  _waiting_for_finish server fuel self response true sleep w =
  poll_loop server fuel self href (sleep_or_default sleep) w.
Proof.
  intros Hcode Hjson Hhref. unfold _waiting_for_finish.
  rewrite Hcode. cbn [andb Z.eqb STATUS_ACCEPTED Pos.eqb].
  unfold pbind, terminating, lift. now rewrite Hjson, Hhref.
Qed.

Lemma poll_trace_app_cycle (secs : Z) (r : Request) (es : list Event) :
  poll_trace secs es -> poll_trace secs ([EvSleep secs; EvRequest r] ++ es).
Proof. intros H. simpl. now constructor. Qed.

(** Whatever the server does and however long the loop runs, what it adds
    to the log is sleeps of [secs], each followed by its poll. *)
Lemma poll_loop_trace (fuel : nat) (href : pyval) (secs : Z) (w : World) :
  exists es,
    log (snd (poll_loop server fuel self href secs w)) = (log w ++ es)%list /\
    poll_trace secs es.
Proof.
  revert w. induction fuel as [| fuel IH]; intros w.
  - exists []. simpl. rewrite app_nil_r. split; [reflexivity | constructor].
  - destruct (Z.ltb_spec secs 0) as [Hneg | Hsecs].
    + exists []. rewrite app_nil_r. split; [| constructor].
      cbn [poll_loop]. unfold pbind at 1. unfold terminating at 1.
      unfold time_sleep. apply Z.ltb_lt in Hneg. now rewrite Hneg.
    + destruct href as [| | | u | |];
        try (exists [EvSleep secs]; split; [| constructor];
             cbn [poll_loop]; unfold pbind at 1; unfold terminating at 1;
             unfold time_sleep;
             destruct (Z.ltb_spec secs 0); [lia | reflexivity]).
      rewrite poll_loop_unfold by assumption.
      set (r := poll_request self u).
      set (w1 := mkWorld (log w ++ [EvSleep secs; EvRequest r])%list (fobjs w)).
      destruct (IH w1) as (es & Hlog & Htrace).
      assert (Hstop : exists es0, log w1 = (log w ++ es0)%list /\
                                  poll_trace secs es0).
      { exists [EvSleep secs; EvRequest r]. split; [reflexivity |].
        repeat constructor. }
      assert (Hgo : exists es0,
                 log (snd (poll_loop server fuel self (PStr u) secs w1)) =
                 (log w ++ es0)%list /\ poll_trace secs es0).
      { exists ([EvSleep secs; EvRequest r] ++ es)%list. split.
        - rewrite Hlog. unfold w1. cbn [log]. now rewrite <- app_assoc.
        - now apply poll_trace_app_cycle. }
      destruct (handle_status _); [| exact Hstop].
      destruct (status_code _ =? STATUS_OK); [| exact Hgo].
      destruct (json _) as [body | e]; [| exact Hstop].
      destruct (py_getitem body "status") as [status | e]; [| exact Hstop].
      destruct (py_eq_str status "success"); [exact Hstop | exact Hgo].
Qed.

(** C3, amended. After a 202 response whose body gives the string [u] as
    [href], a waiting call sleeps and polls [u] with the client's token
    over and over.  When the polls are answered "not yet" [n] times (status
    201, 202 or 204, or status 200 with a [status] field other than
    ["success"]) and then with status 200 and [status == "success"], the
    call is still polling after any number of turns up to [n] and returns
    that last response once poll [n] is made, after exactly [n + 1] cycles,
    for every [n].  When instead poll [n] comes back with a status outside
    {200, 201, 202, 204}, the executor's error for that status ends the
    wait there. *)
Theorem waiting_polls_until_success (response : Response) (body : pyval)
    (u : string) (sleep : option Z) (w : World) (n : nat) :
  status_code response = 202 ->
  json response = Ok body ->
  py_getitem body "href" = Ok (PStr u) ->
  0 <= sleep_or_default sleep ->
  let secs := sleep_or_default sleep in
  let r := mkRequest GET u
             [("Authorization", "OAuth " ++ _token (_requester self))]
             None None [] false in
  let last := poll_response server (log w) secs r n in
  (forall i, (i < n)%nat ->
             poll_pending (poll_response server (log w) secs r i)) ->
  (poll_succeeded last ->
   forall fuel,
     _waiting_for_finish server fuel self response true sleep w =
     if (n <? fuel)%nat
     then (Some (Ok last),
           mkWorld (log w ++ poll_cycles secs r (S n))%list (fobjs w))
     else (None, mkWorld (log w ++ poll_cycles secs r fuel)%list (fobjs w)))
  /\
  (forall error_body message,
     ~ In (status_code last) OK_STATUSES ->
     json last = Ok error_body ->
     py_getitem error_body "message" = Ok message ->
     forall fuel, (n < fuel)%nat ->
     _waiting_for_finish server fuel self response true sleep w =
     (Some (Raise (ApiError (spec_error_kind (status_code last)) message)),
      mkWorld (log w ++ poll_cycles secs r (S n))%list (fobjs w))).
Proof.
  intros Hcode Hjson Hhref Hsecs secs r last Hpending. split.
  - intros Hsuccess fuel.
    rewrite (waiting_enters_loop fuel response body (PStr u)) by assumption.
    now apply poll_loop_first_success.
  - intros error_body message Hnot Hejson Hmsg fuel Hfuel.
    rewrite (waiting_enters_loop fuel response body (PStr u)) by assumption.
    now apply (poll_loop_first_error u secs n error_body message).
Qed.

(** C8. When the caller does not wait, or the response is not a 202, the
    response comes back as it is: no sleep, no request, the world
    untouched, whatever the status code and the body are. *)
Theorem waiting_returns_at_once (fuel : nat) (response : Response)
    (wait_for_finish : bool) (sleep : option Z) (w : World) :
  wait_for_finish = false \/ status_code response <> 202 ->
  _waiting_for_finish server fuel self response wait_for_finish sleep w =
  (Some (Ok response), w).
Proof.
  intros H. unfold _waiting_for_finish.
  assert (E : (wait_for_finish
               && (status_code response =? STATUS_ACCEPTED))%bool = false).
  { destruct H as [-> | Hne]; [reflexivity |].
    apply andb_false_iff. right. now apply Z.eqb_neq. }
  now rewrite E.
Qed.

(** The shape of the log of any wait: whatever is slept lasts 3 when no
    interval is supplied or the supplied one is 0, and the supplied
    interval otherwise; every poll comes right after such a sleep. *)
Lemma waiting_sleep_interval (fuel : nat) (response : Response)
    (wait_for_finish : bool) (sleep : option Z) (w : World) :
  poll_trace
    match sleep with
    | None => 3
    | Some override => if override =? 0 then 3 else override
    end
    (new_events w
       (snd (_waiting_for_finish server fuel self response wait_for_finish
               sleep w))).
Proof.
  assert (Hd : match sleep with
               | None => 3
               | Some override => if override =? 0 then 3 else override
               end = sleep_or_default sleep).
  { destruct sleep as [[| p | p] |]; reflexivity. }
  rewrite Hd. unfold _waiting_for_finish.
  assert (Hnil : forall (r : option (result Response)),
             poll_trace (sleep_or_default sleep) (new_events w (snd (r, w)))).
  { intros r. unfold new_events. simpl. rewrite skipn_all. constructor. }
  destruct (wait_for_finish && _)%bool; [| apply Hnil].
  unfold pbind, terminating, lift.
  destruct (json response) as [body | e]; [| apply Hnil].
  destruct (py_getitem body "href") as [href | e]; [| apply Hnil].
  destruct (poll_loop_trace fuel href (sleep_or_default sleep) w)
    as (es & Hlog & Htrace).
  now rewrite (new_events_log _ _ es).
Qed.

End PollerFacts.

(** C3 as stated fails: a poll answered with an error status is not
    followed by another cycle.  Here the first poll gets a 500 and the
    second would get the success, yet the call ends with the error after
    one cycle. *)
Lemma waiting_stops_on_error_status :
  _waiting_for_finish
    (scripted_server [server_error_response] success_response)
    5 demo_disk accepted_response true None empty_world =
  (Some (Raise (ApiError InternalServerError (PStr "Internal Server Error"))),
   mkWorld
     [EvSleep 3;
      EvRequest (mkRequest GET operation_url
                   [("Authorization", "OAuth t0k3n")] None None [] false)]
     []).
Proof. reflexivity. Qed.

Lemma waiting_polls_until_success_witness :
  _waiting_for_finish
    (scripted_server [in_progress_response; accepted_response]
       success_response)
    5 demo_disk accepted_response true (Some 7) empty_world =
  (Some (Ok success_response),
   mkWorld
     (poll_cycles 7
        (mkRequest GET operation_url [("Authorization", "OAuth t0k3n")]
           None None [] false) 3)
     []).
Proof.
  refine (proj1
    (waiting_polls_until_success
       (scripted_server [in_progress_response; accepted_response]
          success_response)
       demo_disk accepted_response
       (PDict [("href", PStr operation_url); ("method", PStr "GET");
               ("templated", PBool false)])
       operation_url (Some 7) empty_world 2
       eq_refl eq_refl eq_refl _ _) _ 5%nat).
  - simpl. lia.
  - intros i Hi. destruct i as [| [| i]]; [| | lia].
    + right. split; [reflexivity |].
      exists (PDict [("status", PStr "in-progress")]), (PStr "in-progress").
      repeat split. discriminate.
    + left. simpl. right. left. reflexivity.
  - split; [reflexivity |].
    exists (PDict [("status", PStr "success")]). split; reflexivity.
Defined.

Lemma waiting_returns_at_once_witness :
  _waiting_for_finish (constant_server success_response) 0 demo_disk
    accepted_response false None empty_world =
  (Some (Ok accepted_response), empty_world).
Proof.
  apply (waiting_returns_at_once (constant_server success_response)
           demo_disk 0 accepted_response false None empty_world).
  left. reflexivity.
Defined.

(** An interval of 0 is supplied, and the loop sleeps for 3. *)
Lemma waiting_zero_interval_sleeps_default :
  new_events empty_world
    (snd (_waiting_for_finish (constant_server success_response) 5 demo_disk
            accepted_response true (Some 0) empty_world)) =
  [EvSleep 3;
   EvRequest (mkRequest GET operation_url [("Authorization", "OAuth t0k3n")]
                None None [] false)].
Proof. reflexivity. Qed.

(** ** Query strings built by the façade *)

Section QueryFacts.

Variable server : Server.
Variable repr_str : string -> string.
Variable json_dumps : pyval -> string.
Variable self : YandexDisk.

Lemma waiting_log (fuel : nat) (response : Response) (wait_for_finish : bool)
    (sleep : option Z) (w : World) :
  exists es,
    log (snd (_waiting_for_finish server fuel self response wait_for_finish
                sleep w)) = (log w ++ es)%list.
Proof.
  unfold _waiting_for_finish.
  assert (Hnil : forall r : option (result Response),
             exists es, log (snd (r, w)) = (log w ++ es)%list).
  { intros r. exists []. simpl. now rewrite app_nil_r. }
  destruct (wait_for_finish && _)%bool; [| apply Hnil].
  unfold pbind, terminating, lift.
  destruct (json response) as [body | e]; [| apply Hnil].
  destruct (py_getitem body "href") as [href | e]; [| apply Hnil].
  destruct (poll_loop_trace server self fuel href (sleep_or_default sleep) w)
    as (es & Hlog & _).
  now exists es.
Qed.

(** C4 fails on the code: [create_folder] called without [fields] sends
    the omitted parameter in its query string, as [fields=None]; so does
    [copy_resource]. *)
Theorem create_folder_sends_fields_None (path : string) (w : World) :
  new_events w (snd (create_folder server repr_str self path PNone w)) =
  [EvRequest
     (mkRequest PUT
        ("https://cloud-api.yandex.net/v1/disk/resources/?path="
           ++ quote_plus path ++ "&fields=None")
        (auth_headers self) None None [] false)].
Proof.
  unfold create_folder, Requester_put, bind.
  rewrite wrap_no_files by reflexivity. cbn [fst snd].
  set (r := request_of _ _ _ _ _).
  assert (Hr : r = mkRequest PUT
        ("https://cloud-api.yandex.net/v1/disk/resources/?path="
           ++ quote_plus path ++ "&fields=None")
        (auth_headers self) None None [] false).
  { reflexivity. }
  destruct (handle_status _); [unfold lift |];
    cbn [snd]; rewrite <- Hr; now apply new_events_log.
Qed.

Lemma copy_resource_sends_fields_None (fuel : nat) (from_path to_path : string)
    (overwrite wait_for_finish : bool) (sleep : option Z) (w : World) :
  exists rest,
    new_events w
      (snd (copy_resource server repr_str fuel self from_path to_path
              overwrite PNone wait_for_finish sleep w)) =
    EvRequest
      (mkRequest POST
         ("https://cloud-api.yandex.net/v1/disk/resources/copy?from="
            ++ quote_plus from_path ++ "&path=" ++ quote_plus to_path
            ++ "&overwrite=" ++ (if overwrite then "True" else "False")
            ++ "&fields=None")
         (auth_headers self) None None [] false) :: rest.
Proof.
  unfold copy_resource, Requester_post.
  unfold pbind at 1. unfold terminating at 1.
  rewrite wrap_no_files by reflexivity.
  set (r := request_of _ _ _ _ _).
  assert (Hr : r = mkRequest POST
         ("https://cloud-api.yandex.net/v1/disk/resources/copy?from="
            ++ quote_plus from_path ++ "&path=" ++ quote_plus to_path
            ++ "&overwrite=" ++ (if overwrite then "True" else "False")
            ++ "&fields=None")
         (auth_headers self) None None [] false).
  { unfold r, request_of, request_url, request_headers, urlencode.
    cbn [map fst snd str_join py_str py_repr absolute_url without_auth
         kw_headers kw_params kw_data kw_stream no_kwargs dict_set].
    destruct overwrite; reflexivity. }
  rewrite <- Hr. clearbody r.
  destruct (handle_status _) as [response | e].
  - set (w1 := mkWorld _ _).
    destruct (waiting_log fuel response wait_for_finish sleep w1)
      as (es & Hlog).
    exists es. unfold pbind.
    destruct (_waiting_for_finish _ _ _ _ _ _ w1) as [[[a | e] |] w2];
      cbn [snd] in *; try (unfold terminating, lift; cbn [snd]);
      apply new_events_log; rewrite Hlog; unfold w1; cbn [log];
      now rewrite <- app_assoc.
  - exists []. now apply new_events_log.
Qed.

(** The sibling that guards the parameter: [set_meta_to_resource] leaves
    an omitted [fields] out of the query string. *)
Lemma set_meta_to_resource_omits_fields (path : string) (data : pyval)
    (w : World) :
  new_events w
    (snd (set_meta_to_resource server repr_str json_dumps self path data
            PNone w)) =
  [EvRequest
     (mkRequest PATCH
        ("https://cloud-api.yandex.net/v1/disk/resources/?path="
           ++ quote_plus path)
        (auth_headers self) None
        (Some (json_dumps (PDict [("custom_properties", data)]))) [] false)].
Proof.
  unfold set_meta_to_resource, Requester_patch, bind.
  rewrite wrap_no_files by reflexivity. cbn [fst snd].
  set (r := request_of _ _ _ _ _).
  assert (Hr : r = mkRequest PATCH
        ("https://cloud-api.yandex.net/v1/disk/resources/?path="
           ++ quote_plus path)
        (auth_headers self) None
        (Some (json_dumps (PDict [("custom_properties", data)]))) [] false).
  { reflexivity. }
  destruct (handle_status _); [unfold lift |];
    cbn [snd]; rewrite <- Hr; now apply new_events_log.
Qed.

End QueryFacts.

(** ** Uploading one file *)

Lemma string_skip_all (n : nat) (s : string) :
  (String.length s <= n)%nat -> string_skip n s = "".
Proof.
  revert n. induction s as [| c s IH]; intros n Hn.
  - destruct n; reflexivity.
  - destruct n as [| n]; simpl in *; [lia |]. apply IH. lia.
Qed.

(** A file object at its start still holds its whole content. *)
Lemma unread_at_start (f : FileObj) :
  file_pos f = 0%nat -> unread f = file_bytes f.
Proof. unfold unread. now intros ->. Qed.

Lemma unread_exhausted (f : FileObj) : unread (exhausted f) = "".
Proof.
  unfold unread, exhausted. simpl. apply string_skip_all. lia.
Qed.

Lemma nth_error_list_set {A : Type} (l : list A) (i : nat) (x y : A) :
  nth_error l i = Some y -> nth_error (list_set l i x) i = Some x.
Proof.
  revert i. induction l as [| a l IH]; intros [| i] H; simpl in *;
    try discriminate; [reflexivity | now apply IH].
Qed.

Lemma list_set_twice {A : Type} (l : list A) (i : nat) (x y : A) :
  list_set (list_set l i x) i y = list_set l i y.
Proof.
  revert i. induction l as [| a l IH]; intros [| i]; simpl;
    try reflexivity. now rewrite IH.
Qed.

(** *** Computations only append to the log *)

Lemma extends_ret {A : Type} (a : A) : extends_log (ret a).
Proof. intros w. exists []. simpl. now rewrite app_nil_r. Qed.

Lemma extends_raise {A : Type} (e : exn) : extends_log (@raise A e).
Proof. intros w. exists []. simpl. now rewrite app_nil_r. Qed.

Lemma extends_lift {A : Type} (r : result A) : extends_log (lift r).
Proof. intros w. exists []. simpl. now rewrite app_nil_r. Qed.

Lemma extends_bind {A B : Type} (m : M A) (k : A -> M B) :
  extends_log m -> (forall a, extends_log (k a)) -> extends_log (bind m k).
Proof.
  intros Hm Hk w. unfold bind. destruct (Hm w) as (es & Hes).
  destruct (m w) as [[a | e] w1]; simpl in Hes.
  - destruct (Hk a w1) as (es' & Hes'). exists (es ++ es')%list.
    now rewrite Hes', Hes, app_assoc.
  - now exists es.
Qed.

Lemma extends_file_read (h : nat) : extends_log (file_read h).
Proof.
  intros w. exists []. rewrite file_read_log. now rewrite app_nil_r.
Qed.

Lemma extends_wrap (server : Server) (self : Requester) (method : Verb)
    (u : string) (kw : Kwargs) :
  extends_log (wrap server self method u kw).
Proof.
  intros w. rewrite wrap_unfold.
  destruct (call_transport _ _ _ _ _ w) as [[response | e] w'] eqn:Hcall.
  - apply call_transport_log in Hcall. destruct Hcall as (r & Hlog & _).
    now exists [EvRequest r].
  - exists []. unfold call_transport, bind in Hcall.
    pose proof (read_files_log (kw_files kw) w) as Hlog.
    destruct (read_files (kw_files kw) w) as [[payload | e'] w1];
      [discriminate |].
    injection Hcall as _ <-. simpl in *. now rewrite app_nil_r.
Qed.

Lemma extends_try_except {A : Type} (m : M A) (kind : ErrorKind)
    (handler : pyval -> M A) :
  extends_log m -> (forall v, extends_log (handler v)) ->
  extends_log (try_except m kind handler).
Proof.
  intros Hm Hh w. unfold try_except. destruct (Hm w) as (es & Hes).
  destruct (m w) as [[a | [k message | | | | |]] w1]; simpl in Hes;
    try (now exists es).
  destruct (ErrorKind_beq k kind); [| now exists es].
  destruct (Hh message w1) as (es' & Hes'). exists (es ++ es')%list.
  now rewrite Hes', Hes, app_assoc.
Qed.

Create HintDb extends.

Lemma starts_bind {A B : Type} (e : Event) (m : M A) (k : A -> M B)
    (w : World) :
  starts_with e m w -> (forall a, extends_log (k a)) ->
  starts_with e (bind m k) w.
Proof.
  intros (es & Hes) Hk. unfold starts_with, bind.
  destruct (m w) as [[a | x] w1]; simpl in Hes.
  - destruct (Hk a w1) as (es' & Hes'). exists (es ++ es')%list.
    rewrite Hes', Hes, <- app_assoc. reflexivity.
  - now exists es.
Qed.

Lemma starts_try_except {A : Type} (e : Event) (m : M A) (kind : ErrorKind)
    (handler : pyval -> M A) (w : World) :
  starts_with e m w -> (forall v, extends_log (handler v)) ->
  starts_with e (try_except m kind handler) w.
Proof.
  intros (es & Hes) Hh. unfold starts_with, try_except.
  destruct (m w) as [[a | [k message | | | | |]] w1]; simpl in Hes;
    try (now exists es).
  destruct (ErrorKind_beq k kind); [| now exists es].
  destruct (Hh message w1) as (es' & Hes'). exists (es ++ es')%list.
  rewrite Hes', Hes, <- app_assoc. reflexivity.
Qed.

Lemma starts_wrap_no_files (server : Server) (self : Requester)
    (method : Verb) (u : string) (kw : Kwargs) (w : World) :
  kw_files kw = [] ->
  starts_with (EvRequest (request_of self method u kw []))
    (wrap server self method u kw) w.
Proof.
  intros Hfiles. exists []. now rewrite wrap_no_files.
Qed.

#[local] Hint Resolve extends_ret extends_raise extends_lift extends_file_read
  extends_wrap : extends.

Ltac extends_tac :=
  repeat first
    [ solve [auto with extends]
    | apply extends_try_except; [| intros ?]
    | apply extends_bind; [| intros ?]
    | match goal with
      | |- extends_log (if ?b then _ else _) => destruct b
      | |- extends_log (match ?x with _ => _ end) => destruct x
      end ].

Section UploadFacts.

Variable server : Server.
Variable self : YandexDisk.

Lemma handle_status_Ok_inv (response a : Response) :
  handle_status response = Ok a -> a = response.
Proof.
  unfold handle_status. destruct (in_statuses _ _); [congruence |].
  destruct (json response); [| discriminate].
  destruct (py_getitem _ _); discriminate.
Qed.

Lemma get_meta_info_md5 (path : string) (w : World) :
  get_meta_info server self path PNone PNone PNone (PList [PStr "md5"])
    PNone PNone false w =
  (match handle_status (server (log w) (meta_request self path)) with
   | Ok response => json response
   | Raise e => Raise e
   end,
   mkWorld (log w ++ [EvRequest (meta_request self path)])%list (fobjs w)).
Proof.
  unfold get_meta_info, Requester_get, bind.
  rewrite wrap_no_files by reflexivity.
  change (request_of _ _ _ _ _) with (meta_request self path).
  destruct (handle_status _); reflexivity.
Qed.

(** [_is_same_file] when the lookup raises [NotFoundError]: the answer is
    [False] and the file object is not read. *)
Lemma is_same_file_not_found (f : nat) (path : string) (w : World)
    (message : pyval) :
  handle_status (server (log w) (meta_request self path)) =
    Raise (ApiError NotFoundError message) ->
  _is_same_file server self f path w =
  (Ok false,
   mkWorld (log w ++ [EvRequest (meta_request self path)])%list (fobjs w)).
Proof.
  intros H. unfold _is_same_file, try_except, bind.
  rewrite get_meta_info_md5, H. reflexivity.
Qed.

(** [_is_same_file] when the lookup answers: the file object is read to
    its end and the digest of what was read is compared with the remote
    [md5] field. *)
Lemma is_same_file_found (f : nat) (path : string) (w : World)
    (fo : FileObj) (body remote : pyval) :
  let response := server (log w) (meta_request self path) in
  In (status_code response) OK_STATUSES ->
  json response = Ok body ->
  py_getitem body "md5" = Ok remote ->
  nth_error (fobjs w) f = Some fo ->
  _is_same_file server self f path w =
  (Ok (py_eq_str remote (md5_hexdigest (unread fo))),
   mkWorld (log w ++ [EvRequest (meta_request self path)])%list
     (list_set (fobjs w) f (exhausted fo))).
Proof.
  intros response Hok Hjson Hmd5 Hfo.
  unfold _is_same_file, try_except, bind.
  rewrite get_meta_info_md5. fold response.
  rewrite handle_status_ok by assumption. rewrite Hjson.
  unfold ret, file_read. cbn [fobjs log]. rewrite Hfo.
  unfold lift. rewrite Hmd5. reflexivity.
Qed.

(** The two steps of an upload that was not skipped, from the point where
    the upload URL is asked for. *)
Lemma upload_two_steps (f : nat) (path : string) (overwrite : bool)
    (w : World) (fo : FileObj) (body : pyval) (href : string) :
  let ask := upload_url_request self path overwrite in
  let put := put_file_request self href (unread fo) in
  In (status_code (server (log w) ask)) OK_STATUSES ->
  json (server (log w) ask) = Ok body ->
  py_getitem body "href" = Ok (PStr href) ->
  nth_error (fobjs w) f = Some fo ->
  (upload_path_url <- Requester_get server (_requester self)
                        "disk/resources/upload"
                        (Some [("path", PStr path);
                               ("overwrite", PBool overwrite)])
                        no_kwargs ;;
   body <- lift (json upload_path_url) ;;
   href <- lift (py_getitem body "href") ;;
   u <- lift (as_url href) ;;
   Requester_put server (_requester self) u
     (mkKwargs None None None [("file", f)] false true false) ;;;
   ret true) w =
  (true_if_ok (handle_status (server (log w ++ [EvRequest ask])%list put)),
   mkWorld (log w ++ [EvRequest ask; EvRequest put])%list
     (list_set (fobjs w) f (exhausted fo))).
Proof.
  intros ask put Hok Hjson Hhref Hfo.
  unfold Requester_get. unfold bind at 1.
  rewrite wrap_no_files by reflexivity.
  change (request_of _ _ _ _ _) with ask.
  rewrite handle_status_ok by assumption.
  unfold bind at 1. unfold lift at 1. rewrite Hjson.
  unfold bind at 1. unfold lift at 1. rewrite Hhref.
  unfold bind at 1. unfold lift at 1. cbn [as_url].
  unfold bind at 1. unfold Requester_put. rewrite wrap_unfold.
  unfold call_transport. unfold bind at 1. cbn [kw_files read_files].
  unfold bind at 1. unfold file_read. cbn [fobjs log]. rewrite Hfo.
  unfold bind at 1. unfold ret at 1. unfold ret at 1.
  cbn [log fobjs kw_params kw_data kw_stream].
  change (mkRequest PUT _ _ None None [("file", unread fo)] false) with put.
  rewrite <- app_assoc. cbn [app].
  destruct (handle_status _); reflexivity.
Qed.

Lemma extends_upload_file (f : nat) (path : string)
    (overwrite skip_exists : bool) :
  extends_log (upload_file server self f path overwrite
                 skip_exists).
Proof.
  unfold upload_file, _is_same_file, get_meta_info, Requester_get,
    Requester_put.
  extends_tac.
Qed.

(** With both flags set, whatever happens next, the first thing the
    upload does is the metadata lookup. *)
Lemma upload_file_checks_first (f : nat) (path : string) (w : World) :
  starts_with (EvRequest (meta_request self path))
    (upload_file server self f path true true) w.
Proof.
  unfold upload_file. cbn [andb].
  apply starts_bind.
  - unfold _is_same_file. apply starts_bind.
    + apply starts_try_except; [| intros v; auto with extends].
      apply starts_bind; [| intros a; auto with extends].
      unfold get_meta_info. apply starts_bind; [| intros a; auto with extends].
      unfold Requester_get.
      apply (starts_wrap_no_files server (_requester self) GET); reflexivity.
    + intros found. extends_tac.
  - intros same. unfold Requester_get, Requester_put. extends_tac.
Qed.

(** C5. An upload with [overwrite] and [skip_exists] both set begins with
    the metadata lookup for the destination path, restricted to the [md5]
    field.  When that lookup raises [NotFoundError], the upload URL is
    asked for and the file's content is PUT to it.  When the lookup gives
    an [md5] equal to the MD5 digest of what the file object holds (its
    whole content when it is at its start, [unread_at_start]), no further
    request is made and the answer is [True]. *)
Theorem upload_file_skip_if_same (f : nat) (path : string) (w : World)
    (fo : FileObj) :
  nth_error (fobjs w) f = Some fo ->
  let lookup := meta_request self path in
  let found := server (log w) lookup in
  let checked := (log w ++ [EvRequest lookup])%list in
  (exists rest,
     new_events w
       (snd (upload_file server self f path true true w)) =
     EvRequest lookup :: rest) /\
  (forall (message body : pyval) (href : string),
     handle_status found = Raise (ApiError NotFoundError message) ->
     let ask := upload_url_request self path true in
     let put := put_file_request self href (unread fo) in
     In (status_code (server checked ask)) OK_STATUSES ->
     json (server checked ask) = Ok body ->
     py_getitem body "href" = Ok (PStr href) ->
     upload_file server self f path true true w =
     (true_if_ok (handle_status (server (checked ++ [EvRequest ask])%list put)),
      mkWorld (log w ++ [EvRequest lookup; EvRequest ask; EvRequest put])%list
        (list_set (fobjs w) f (exhausted fo)))) /\
  (forall body : pyval,
     In (status_code found) OK_STATUSES ->
     json found = Ok body ->
     py_getitem body "md5" = Ok (PStr (md5_hexdigest (unread fo))) ->
     upload_file server self f path true true w =
     (Ok true,
      mkWorld (log w ++ [EvRequest lookup])%list
        (list_set (fobjs w) f (exhausted fo)))).
Proof.
  intros Hfo lookup found checked. split; [| split].
  - destruct (upload_file_checks_first f path w) as (rest & Hlog).
    exists rest. now apply new_events_log.
  - intros message body href Hnf ask put Hok Hjson Hhref.
    unfold upload_file. cbn [andb]. unfold bind at 1.
    rewrite (is_same_file_not_found f path w message) by assumption.
    rewrite (upload_two_steps f path true _ fo body href);
      cbn [log fobjs]; try assumption.
    unfold checked. rewrite <- !app_assoc. reflexivity.
  - intros body Hok Hjson Hmd5.
    unfold upload_file. cbn [andb]. unfold bind at 1.
    rewrite (is_same_file_found f path w fo body
               (PStr (md5_hexdigest (unread fo)))) by assumption.
    cbn [py_eq_str]. rewrite String.eqb_refl. reflexivity.
Qed.

(** C10. With [overwrite] and [skip_exists] both set, a remote resource
    that exists and whose [md5] differs from the digest of the file: the
    hash check has read the file object to its end, the PUT hands the same
    file object to the transport, and the transport finds nothing left to
    read: the bytes sent are empty, and the file object stays at its end. *)
Theorem upload_file_after_hash_sends_nothing (f : nat) (path : string)
    (w : World) (fo : FileObj) (info remote body : pyval) (href : string) :
  nth_error (fobjs w) f = Some fo ->
  let lookup := meta_request self path in
  let ask := upload_url_request self path true in
  let put := put_file_request self href "" in
  let checked := (log w ++ [EvRequest lookup])%list in
  In (status_code (server (log w) lookup)) OK_STATUSES ->
  json (server (log w) lookup) = Ok info ->
  py_getitem info "md5" = Ok remote ->
  remote <> PStr (md5_hexdigest (unread fo)) ->
  In (status_code (server checked ask)) OK_STATUSES ->
  json (server checked ask) = Ok body ->
  py_getitem body "href" = Ok (PStr href) ->
  upload_file server self f path true true w =
  (true_if_ok (handle_status (server (checked ++ [EvRequest ask])%list put)),
   mkWorld (log w ++ [EvRequest lookup; EvRequest ask; EvRequest put])%list
     (list_set (fobjs w) f (exhausted fo))).
Proof.
  intros Hfo lookup ask put checked Hok Hjson Hmd5 Hdiff Hok2 Hjson2 Hhref.
  unfold upload_file. cbn [andb]. unfold bind at 1.
  rewrite (is_same_file_found f path w fo info remote) by assumption.
  destruct (py_eq_str remote (md5_hexdigest (unread fo))) eqn:E.
  { apply py_eq_str_true in E. contradiction. }
  rewrite (upload_two_steps f path true _ (exhausted fo) body href);
    cbn [log fobjs]; try assumption.
  - rewrite unread_exhausted, list_set_twice.
    assert (Hx : exhausted (exhausted fo) = exhausted fo).
    { unfold exhausted. simpl. f_equal. lia. }
    rewrite Hx. unfold checked. rewrite <- !app_assoc. reflexivity.
  - now apply (nth_error_list_set _ _ _ fo).
Qed.

End UploadFacts.

(** ** Uploading a directory *)

Section DirectoryFacts.

Variable server : Server.
Variable repr_str : string -> string.
Variable self : YandexDisk.

(** What the loop of [upload_directory] does with a directory item. *)
Lemma upload_item_directory (fs : FileSystem) (path : string)
    (overwrite skip_exists : bool) (item_path related_path : string) :
  related_path <> "" ->
  forall w,
    upload_item server repr_str fs self path overwrite skip_exists
      (true, item_path, related_path) w =
    make_folder server repr_str self (os_path_join path related_path) w.
Proof.
  intros Hne w. unfold upload_item, make_folder.
  destruct (String.eqb_spec related_path ""); [contradiction |].
  unfold try_except, bind.
  destruct (create_folder _ _ _ _ _ w) as [[body | e] w']; [reflexivity |].
  destruct e as [k message | | | | |]; try reflexivity.
  destruct k; try reflexivity.
  cbn [ErrorKind_beq folder_exists_error].
  destruct (is_substring _ _); reflexivity.
Qed.

(** An item with no path relative to the start is passed over. *)
Lemma upload_item_start (fs : FileSystem) (path : string)
    (overwrite skip_exists is_directory : bool) (item_path : string) :
  upload_item server repr_str fs self path overwrite skip_exists
    (is_directory, item_path, "") = ret tt.
Proof. reflexivity. Qed.

(** What it does with a file item. *)
Lemma upload_item_file (fs : FileSystem) (path : string)
    (overwrite skip_exists : bool) (item_path related_path : string) :
  related_path <> "" ->
  upload_item server repr_str fs self path overwrite skip_exists
    (false, item_path, related_path) =
  upload_one server fs self item_path (os_path_join path related_path)
    overwrite skip_exists.
Proof.
  intros Hne. unfold upload_item, upload_one.
  destruct (String.eqb_spec related_path ""); [contradiction | reflexivity].
Qed.

(** C6. For the tree [root/a.txt], [root/sub/b.txt] uploaded to [/dest],
    in either order in which [root] can list its entries, and whatever the
    flags and the server: the upload is one folder creation for
    [/dest/sub] and one file upload each for [/dest/a.txt] and
    [/dest/sub/b.txt], nothing else, the folder before the file inside it.
    For every directory of any tree the folder creation ignores the
    [DiskPathError] whose text says that the folder exists and passes every
    other exception on. *)
Theorem upload_directory_example_and_tolerance :
  (forall (fuel : nat) (overwrite skip_exists : bool) (w : World),
     (4 <= fuel)%nat ->
     upload_directory server repr_str (tree_fs example_tree) fuel self
       "root" "/dest" overwrite skip_exists w =
     terminating
       (upload_one server (tree_fs example_tree) self
          "root/a.txt" "/dest/a.txt" overwrite skip_exists ;;;
        make_folder server repr_str self "/dest/sub" ;;;
        upload_one server (tree_fs example_tree) self
          "root/sub/b.txt" "/dest/sub/b.txt" overwrite skip_exists ;;;
        ret tt) w) /\
  (forall (fuel : nat) (overwrite skip_exists : bool) (w : World),
     (4 <= fuel)%nat ->
     upload_directory server repr_str (tree_fs example_tree_sub_first) fuel
       self "root" "/dest" overwrite skip_exists w =
     terminating
       (make_folder server repr_str self "/dest/sub" ;;;
        upload_one server (tree_fs example_tree_sub_first) self
          "root/sub/b.txt" "/dest/sub/b.txt" overwrite skip_exists ;;;
        upload_one server (tree_fs example_tree_sub_first) self
          "root/a.txt" "/dest/a.txt" overwrite skip_exists ;;;
        ret tt) w) /\
  (forall (fs : FileSystem) (path item_path related_path : string)
          (overwrite skip_exists : bool) (w w' : World) (r : result pyval),
     related_path <> "" ->
     create_folder server repr_str self (os_path_join path related_path)
       PNone w = (r, w') ->
     upload_item server repr_str fs self path overwrite skip_exists
       (true, item_path, related_path) w =
     (match r with
      | Ok _ => Ok tt
      | Raise (ApiError DiskPathError message) =>
          if is_substring folder_exists_text (py_str repr_str message)
          then Ok tt
          else Raise (ApiError DiskPathError message)
      | Raise e => Raise e
      end, w')).
Proof.
  split; [| split].
  - intros fuel overwrite skip_exists w Hfuel.
    destruct fuel as [| [| [| [| fuel]]]]; try lia.
    unfold upload_directory.
    change (_iter_directory_content (tree_fs example_tree)
              (S (S (S (S fuel)))) "root" None)
      with (Some [(true, "root", ""); (false, "root/a.txt", "a.txt");
                  (true, "root/sub", "sub");
                  (false, "root/sub/b.txt", "sub/b.txt")]).
    unfold terminating. cbn [for_each].
    rewrite upload_item_start. unfold bind at 1. unfold ret at 1.
    rewrite (upload_item_file (tree_fs example_tree) "/dest" overwrite
               skip_exists "root/a.txt" "a.txt") by discriminate.
    rewrite (upload_item_file (tree_fs example_tree) "/dest" overwrite
               skip_exists "root/sub/b.txt" "sub/b.txt") by discriminate.
    unfold bind.
    destruct (upload_one _ _ _ _ _ _ _ w) as [[[] | e] w1]; [| reflexivity].
    rewrite upload_item_directory by discriminate.
    reflexivity.
  - intros fuel overwrite skip_exists w Hfuel.
    destruct fuel as [| [| [| [| fuel]]]]; try lia.
    unfold upload_directory.
    change (_iter_directory_content (tree_fs example_tree_sub_first)
              (S (S (S (S fuel)))) "root" None)
      with (Some [(true, "root", ""); (true, "root/sub", "sub");
                  (false, "root/sub/b.txt", "sub/b.txt");
                  (false, "root/a.txt", "a.txt")]).
    unfold terminating. cbn [for_each].
    rewrite upload_item_start. unfold bind at 1. unfold ret at 1.
    rewrite (upload_item_file (tree_fs example_tree_sub_first) "/dest"
               overwrite skip_exists "root/a.txt" "a.txt") by discriminate.
    rewrite (upload_item_file (tree_fs example_tree_sub_first) "/dest"
               overwrite skip_exists "root/sub/b.txt" "sub/b.txt")
      by discriminate.
    unfold bind.
    rewrite upload_item_directory by discriminate.
    reflexivity.
  - intros fs path item_path related_path overwrite skip_exists w w' r Hne Hr.
    rewrite upload_item_directory by assumption.
    unfold make_folder. rewrite Hr.
    destruct r as [body | e]; [reflexivity |].
    destruct e as [k message | | | | |]; try reflexivity.
    destruct k; try reflexivity.
    cbn [folder_exists_error]. destruct (is_substring _ _); reflexivity.
Qed.

End DirectoryFacts.

(** ** The upload theorems at work *)

Lemma upload_file_skip_if_same_witness :
  upload_file (disk_server not_found_response) demo_disk 0 "/dest/a.txt"
    true true (mkWorld [] [mkFile "hello world" 0]) =
  (Ok true,
   mkWorld
     [EvRequest (meta_request demo_disk "/dest/a.txt");
      EvRequest (upload_url_request demo_disk "/dest/a.txt" true);
      EvRequest (put_file_request demo_disk upload_link "hello world")]
     [mkFile "hello world" 11]) /\
  upload_file (disk_server same_md5_response) demo_disk 0 "/dest/a.txt"
    true true (mkWorld [] [mkFile "hello world" 0]) =
  (Ok true,
   mkWorld [EvRequest (meta_request demo_disk "/dest/a.txt")]
     [mkFile "hello world" 11]).
Proof.
  split.
  - refine (proj1 (proj2
      (upload_file_skip_if_same (disk_server not_found_response) demo_disk
         0 "/dest/a.txt" (mkWorld [] [mkFile "hello world" 0])
         (mkFile "hello world" 0) eq_refl))
      (PStr "Resource not found")
      (PDict [("href", PStr upload_link); ("method", PStr "PUT");
              ("templated", PBool false)])
      upload_link _ _ _ _).
    + reflexivity.
    + simpl. left. reflexivity.
    + reflexivity.
    + reflexivity.
  - refine (proj2 (proj2
      (upload_file_skip_if_same (disk_server same_md5_response) demo_disk
         0 "/dest/a.txt" (mkWorld [] [mkFile "hello world" 0])
         (mkFile "hello world" 0) eq_refl))
      (PDict [("md5", PStr "5eb63bbbe01eeed093cb22bb8f5acdc3")]) _ _ _).
    + simpl. left. reflexivity.
    + reflexivity.
    + vm_compute. reflexivity.
Defined.

Lemma upload_file_after_hash_sends_nothing_witness :
  upload_file (disk_server other_md5_response) demo_disk 0 "/dest/a.txt"
    true true (mkWorld [] [mkFile "hello world" 0]) =
  (Ok true,
   mkWorld
     [EvRequest (meta_request demo_disk "/dest/a.txt");
      EvRequest (upload_url_request demo_disk "/dest/a.txt" true);
      EvRequest (put_file_request demo_disk upload_link "")]
     [mkFile "hello world" 11]).
Proof.
  refine (upload_file_after_hash_sends_nothing
            (disk_server other_md5_response) demo_disk 0 "/dest/a.txt"
            (mkWorld [] [mkFile "hello world" 0]) (mkFile "hello world" 0)
            (PDict [("md5", PStr "d41d8cd98f00b204e9800998ecf8427e")])
            (PStr "d41d8cd98f00b204e9800998ecf8427e")
            (PDict [("href", PStr upload_link); ("method", PStr "PUT");
                    ("templated", PBool false)])
            upload_link eq_refl _ _ _ _ _ _ _).
  - simpl. left. reflexivity.
  - reflexivity.
  - reflexivity.
  - vm_compute. discriminate.
  - simpl. left. reflexivity.
  - reflexivity.
  - reflexivity.
Defined.

Lemma upload_directory_example_and_tolerance_witness :
  upload_directory (disk_server not_found_response) plain_repr
    (tree_fs example_tree) 4 demo_disk "root" "/dest" false true
    empty_world =
  (Some (Ok tt),
   mkWorld
     [EvRequest (upload_url_request demo_disk "/dest/a.txt" false);
      EvRequest (put_file_request demo_disk upload_link "alpha");
      EvRequest (create_sub_request demo_disk);
      EvRequest (upload_url_request demo_disk "/dest/sub/b.txt" false);
      EvRequest (put_file_request demo_disk upload_link "beta")]
     [mkFile "alpha" 5; mkFile "beta" 4]) /\
  upload_item (constant_server folder_exists_response) plain_repr
    (tree_fs example_tree) demo_disk "/dest" false true
    (true, "root/sub", "sub") empty_world =
  (Ok tt, mkWorld [EvRequest (create_sub_request demo_disk)] []).
Proof.
  split.
  - rewrite (proj1 (upload_directory_example_and_tolerance
                      (disk_server not_found_response) plain_repr demo_disk))
      by lia.
    vm_compute. reflexivity.
  - rewrite (proj2 (proj2 (upload_directory_example_and_tolerance
                      (constant_server folder_exists_response) plain_repr
                      demo_disk))
               (tree_fs example_tree) "/dest" "root/sub" "sub" false true
               empty_world
               (mkWorld [EvRequest (create_sub_request demo_disk)] [])
               (Raise (ApiError DiskPathError (PStr folder_exists_message))));
      [| discriminate | reflexivity].
    vm_compute. reflexivity.
Defined.

(** * Further properties of requester.py *)

Section RequesterEdges.

Variable server : Server.
Variable self : Requester.

(** X1. The mapped error needs a body with a [message]: a non-success
    response whose body does not parse raises [JSONDecodeError], one whose
    body is not an object raises [TypeError], and an object without a
    [message] field raises [KeyError] for that key.  The request has been
    sent in each case. *)
Theorem wrap_error_without_message (method : Verb) (u : string) (kw : Kwargs)
    (w w' : World) (response : Response) :
  call_transport server method (request_url kw u) (request_headers self kw)
    kw w = (Ok response, w') ->
  ~ In (status_code response) OK_STATUSES ->
  (json_body response = None ->
   wrap server self method u kw w = (Raise JSONDecodeError, w')) /\
  (forall d, json_body response = Some (PDict d) ->
             dict_get d "message" = None ->
             wrap server self method u kw w =
             (Raise (KeyError "message"), w')) /\
  (forall v, json_body response = Some v ->
             (forall d, v <> PDict d) ->
             wrap server self method u kw w = (Raise TypeError, w')).
Proof.
  intros Hcall Hstatus. rewrite wrap_unfold, Hcall. unfold handle_status.
  destruct (in_statuses (status_code response) OK_STATUSES) eqn:E.
  { apply in_statuses_In in E. contradiction. }
  unfold json. repeat split.
  - intros ->. reflexivity.
  - intros d -> Hd. simpl. now rewrite Hd.
  - intros v -> Hv. destruct v; try reflexivity.
    exfalso. now apply (Hv d).
Qed.

(** X2. A wrapped call never retries and never sleeps: it adds at most
    one event to the log, a request; when it hands no file object to the
    transport it adds exactly one, whatever the server answers. *)
Theorem wrap_sends_at_most_once (method : Verb) (u : string) (kw : Kwargs)
    (w : World) :
  (new_events w (snd (wrap server self method u kw w)) = [] \/
   exists r, new_events w (snd (wrap server self method u kw w)) =
             [EvRequest r]) /\
  (kw_files kw = [] ->
   new_events w (snd (wrap server self method u kw w)) =
   [EvRequest (request_of self method u kw [])]).
Proof.
  split.
  - destruct (wrap_log server self method u kw w) as [H | (r & H & _)];
      [now left | right; now exists r].
  - intros Hfiles. rewrite wrap_no_files by assumption.
    now apply new_events_log.
Qed.

(** X3. The headers of the request that is sent: with [without_auth] they
    are the caller's own, untouched; otherwise every header other than
    [Authorization] is the caller's. *)
Theorem wrap_keeps_caller_headers (method : Verb) (u : string) (kw : Kwargs)
    (w : World) (r : Request) :
  In (EvRequest r) (new_events w (snd (wrap server self method u kw w))) ->
  let given := match kw_headers kw with
               | Some hs => hs
               | None => []
               end in
  (without_auth kw = true -> headers r = given) /\
  (forall k, k <> "Authorization" ->
             dict_get (headers r) k = dict_get given k).
Proof.
  intros Hin given.
  destruct (wrap_log server self method u kw w)
    as [Hnil | (r' & Hone & _ & _ & Hh)].
  - rewrite Hnil in Hin. contradiction.
  - rewrite Hone in Hin. destruct Hin as [Heq | []].
    injection Heq as <-. rewrite Hh. unfold request_headers. fold given.
    split.
    + intros ->. reflexivity.
    + intros k Hk. destruct (without_auth kw); [reflexivity |].
      now apply dict_get_set_other.
Qed.

End RequesterEdges.

Lemma wrap_error_without_message_witness :
  wrap (constant_server (mkResponse 502 None "Bad Gateway")) demo_requester
    GET "disk/" no_kwargs empty_world =
  (Raise JSONDecodeError, mkWorld [EvRequest demo_request] []).
Proof.
  refine (proj1 (wrap_error_without_message
                   (constant_server (mkResponse 502 None "Bad Gateway"))
                   demo_requester GET "disk/" no_kwargs empty_world
                   (mkWorld [EvRequest demo_request] [])
                   (mkResponse 502 None "Bad Gateway") eq_refl _) eq_refl).
  simpl. intros [H | [H | [H | [H | []]]]]; discriminate H.
Defined.

Lemma wrap_keeps_caller_headers_witness :
  (true = true ->
   headers traced_request = [("Authorization", "Basic Zm9v"); ("X-Trace", "1")])
  /\
  (forall k, k <> "Authorization" ->
             dict_get (headers traced_request) k =
             dict_get [("Authorization", "Basic Zm9v"); ("X-Trace", "1")] k).
Proof.
  apply (wrap_keeps_caller_headers (constant_server no_content_response)
           demo_requester GET "disk/"
           (mkKwargs None None
              (Some [("Authorization", "Basic Zm9v"); ("X-Trace", "1")])
              [] false false true)
           empty_world traced_request).
  simpl. left. reflexivity.
Defined.

(** * Further properties of the poller *)

Section PollerEdges.

Variable server : Server.
Variable self : YandexDisk.

Lemma poll_loop_all_pending (u : string) (secs : Z) :
  0 <= secs ->
  forall (fuel : nat) (w : World),
    let r := poll_request self u in
    (forall i, poll_pending (poll_response server (log w) secs r i)) ->
    poll_loop server fuel self (PStr u) secs w =
    (None, mkWorld (log w ++ poll_cycles secs r fuel)%list (fobjs w)).
Proof.
  intros Hsecs. induction fuel as [| fuel IH]; intros w r Hpending.
  - simpl. unfold still_running. now rewrite world_eta.
  - rewrite poll_loop_pending; [| assumption | apply (Hpending 0%nat)].
    fold r. rewrite IH; cbn [log fobjs].
    + simpl. now rewrite <- app_assoc.
    + intros i. rewrite poll_response_shift. apply Hpending.
Qed.

(** X4. A wait whose polls are all answered "not yet" (for instance with
    a [status] of ["failed"]) never ends: after any number of turns the
    call is still running, having slept and polled that many times. *)
Theorem waiting_never_ends_while_pending (response : Response) (body : pyval)
    (u : string) (sleep : option Z) (w : World) :
  status_code response = 202 ->
  json response = Ok body ->
  py_getitem body "href" = Ok (PStr u) ->
  0 <= sleep_or_default sleep ->
  let secs := sleep_or_default sleep in
  let r := mkRequest GET u
             [("Authorization", "OAuth " ++ _token (_requester self))]
             None None [] false in
  (forall i, poll_pending (poll_response server (log w) secs r i)) ->
  forall fuel,
    _waiting_for_finish server fuel self response true sleep w =
    (None, mkWorld (log w ++ poll_cycles secs r fuel)%list (fobjs w)).
Proof.
  intros Hcode Hjson Hhref Hsecs secs r Hpending fuel.
  rewrite (waiting_enters_loop server self fuel response body (PStr u))
    by assumption.
  now apply poll_loop_all_pending.
Qed.

(** X5. A negative interval: the first [time.sleep] raises [ValueError],
    and the wait ends before any poll is made. *)
Theorem waiting_negative_interval (fuel : nat) (response : Response)
    (body href : pyval) (secs : Z) (w : World) :
  status_code response = 202 ->
  json response = Ok body ->
  py_getitem body "href" = Ok href ->
  secs < 0 ->
  _waiting_for_finish server (S fuel) self response true (Some secs) w =
  (Some (Raise ValueError), w).
Proof.
  intros Hcode Hjson Hhref Hneg.
  rewrite (waiting_enters_loop server self (S fuel) response body href)
    by assumption.
  assert (Hd : sleep_or_default (Some secs) = secs).
  { destruct secs; try reflexivity. lia. }
  rewrite Hd. cbn [poll_loop]. unfold pbind at 1. unfold terminating at 1.
  unfold time_sleep. apply Z.ltb_lt in Hneg. now rewrite Hneg.
Qed.

(** X6. A 202 response without the link to poll: when its body does not
    parse the wait raises [JSONDecodeError], when its body is an object
    without [href] it raises [KeyError] for that key; nothing is slept or
    sent. *)
Theorem waiting_without_href (fuel : nat) (response : Response)
    (sleep : option Z) (w : World) :
  status_code response = 202 ->
  (json_body response = None ->
   _waiting_for_finish server fuel self response true sleep w =
   (Some (Raise JSONDecodeError), w)) /\
  (forall d, json_body response = Some (PDict d) ->
             dict_get d "href" = None ->
             _waiting_for_finish server fuel self response true sleep w =
             (Some (Raise (KeyError "href")), w)).
Proof.
  intros Hcode. unfold _waiting_for_finish.
  rewrite Hcode. cbn [andb Z.eqb STATUS_ACCEPTED Pos.eqb].
  unfold pbind, terminating, lift, json. split.
  - intros ->. reflexivity.
  - intros d -> Hd. simpl. now rewrite Hd.
Qed.

End PollerEdges.

Lemma waiting_never_ends_while_pending_witness :
  _waiting_for_finish (constant_server failed_response) 4 demo_disk
    accepted_response true None empty_world =
  (None,
   mkWorld
     (poll_cycles 3
        (mkRequest GET operation_url [("Authorization", "OAuth t0k3n")]
           None None [] false) 4)
     []).
Proof.
  refine (waiting_never_ends_while_pending (constant_server failed_response)
            demo_disk accepted_response
            (PDict [("href", PStr operation_url); ("method", PStr "GET");
                    ("templated", PBool false)])
            operation_url None empty_world eq_refl eq_refl eq_refl _ _ 4%nat).
  - unfold sleep_or_default, _SLEEP. lia.
  - intros i. right. split; [reflexivity |].
    exists (PDict [("status", PStr "failed")]), (PStr "failed").
    repeat split. discriminate.
Defined.

Lemma waiting_negative_interval_witness :
  _waiting_for_finish (constant_server success_response) 1 demo_disk
    accepted_response true (Some (-1)) empty_world =
  (Some (Raise ValueError), empty_world).
Proof.
  refine (waiting_negative_interval (constant_server success_response)
            demo_disk 0 accepted_response
            (PDict [("href", PStr operation_url); ("method", PStr "GET");
                    ("templated", PBool false)])
            (PStr operation_url) (-1) empty_world eq_refl eq_refl eq_refl _).
  lia.
Defined.

Lemma waiting_without_href_witness :
  _waiting_for_finish (constant_server success_response) 1 demo_disk
    (mkResponse 202 (Some (PDict [])) "") true None empty_world =
  (Some (Raise (KeyError "href")), empty_world).
Proof.
  refine (proj2 (waiting_without_href (constant_server success_response)
                   demo_disk 1 (mkResponse 202 (Some (PDict [])) "") None
                   empty_world eq_refl) [] eq_refl eq_refl).
Defined.

(** * Further properties of the uploads and downloads *)

Section UploadEdges.

Variable server : Server.
Variable self : YandexDisk.

(** X7. Unless both [overwrite] and [skip_exists] are set, an upload
    looks nothing up and hashes nothing: it asks for the upload URL and
    PUTs to it everything the file object had not given out yet. *)
Theorem upload_file_without_check (f : nat) (path : string)
    (overwrite skip_exists : bool) (w : World) (fo : FileObj) (body : pyval)
    (href : string) :
  (overwrite && skip_exists)%bool = false ->
  nth_error (fobjs w) f = Some fo ->
  let ask := upload_url_request self path overwrite in
  let put := put_file_request self href (unread fo) in
  In (status_code (server (log w) ask)) OK_STATUSES ->
  json (server (log w) ask) = Ok body ->
  py_getitem body "href" = Ok (PStr href) ->
  upload_file server self f path overwrite skip_exists w =
  (true_if_ok (handle_status (server (log w ++ [EvRequest ask])%list put)),
   mkWorld (log w ++ [EvRequest ask; EvRequest put])%list
     (list_set (fobjs w) f (exhausted fo))).
Proof.
  intros Hflags Hfo ask put Hok Hjson Hhref.
  unfold upload_file. rewrite Hflags. unfold bind at 1. unfold ret at 1.
  now apply (upload_two_steps server self f path overwrite w fo body href).
Qed.

(** X8. With both flags set, a metadata lookup that fails with anything
    but [NotFoundError] ends the upload with that exception: the file
    object is not read and nothing else is sent. *)
Theorem upload_file_lookup_error (f : nat) (path : string) (w : World)
    (e : exn) :
  handle_status (server (log w) (meta_request self path)) = Raise e ->
  (forall message, e <> ApiError NotFoundError message) ->
  upload_file server self f path true true w =
  (Raise e,
   mkWorld (log w ++ [EvRequest (meta_request self path)])%list (fobjs w)).
Proof.
  intros Hraise Hother. unfold upload_file. cbn [andb].
  unfold bind at 1. unfold _is_same_file. unfold bind at 1.
  unfold try_except. unfold bind at 1.
  rewrite get_meta_info_md5, Hraise.
  destruct e as [k message | | | | |]; try reflexivity.
  destruct k; try reflexivity.
  exfalso. now apply (Hother message).
Qed.

(** X9. With both flags set, metadata that answers without an [md5]
    (the body is not an object, or has no such field): the file object has
    been read to its end by then, the subscript raises, and nothing is
    uploaded. *)
Theorem upload_file_metadata_without_md5 (f : nat) (path : string)
    (w : World) (fo : FileObj) (info : pyval) (e : exn) :
  nth_error (fobjs w) f = Some fo ->
  In (status_code (server (log w) (meta_request self path))) OK_STATUSES ->
  json (server (log w) (meta_request self path)) = Ok info ->
  py_getitem info "md5" = Raise e ->
  upload_file server self f path true true w =
  (Raise e,
   mkWorld (log w ++ [EvRequest (meta_request self path)])%list
     (list_set (fobjs w) f (exhausted fo))).
Proof.
  intros Hfo Hok Hjson Hmd5. unfold upload_file. cbn [andb].
  unfold bind at 1. unfold _is_same_file. unfold bind at 1.
  unfold try_except. unfold bind at 1.
  rewrite get_meta_info_md5, handle_status_ok, Hjson by assumption.
  unfold ret at 1. unfold bind at 1. unfold file_read. cbn [fobjs log].
  rewrite Hfo. unfold bind at 1. unfold lift at 1. now rewrite Hmd5.
Qed.

(** X10. A download is two requests: the link is asked for with the path
    as a parameter, then fetched as an absolute URL, with the client's
    token and the [stream] flag, and the bytes of that second response are
    the result. *)
Theorem download_file_two_steps (path : string) (stream : bool) (w : World)
    (body : pyval) (href : string) :
  let ask := mkRequest GET
               "https://cloud-api.yandex.net/v1/disk/resources/download"
               (auth_headers self) (Some [("path", PStr path)]) None []
               false in
  let fetch := mkRequest GET href (auth_headers self) None None [] stream in
  let fetched := server (log w ++ [EvRequest ask])%list fetch in
  In (status_code (server (log w) ask)) OK_STATUSES ->
  json (server (log w) ask) = Ok body ->
  py_getitem body "href" = Ok (PStr href) ->
  download_file server self path stream w =
  (match handle_status fetched with
   | Ok _ => Ok (content fetched)
   | Raise e => Raise e
   end,
   mkWorld (log w ++ [EvRequest ask; EvRequest fetch])%list (fobjs w)).
Proof.
  intros ask fetch fetched Hok Hjson Hhref.
  unfold download_file, Requester_get. unfold bind at 1.
  rewrite wrap_no_files by reflexivity.
  change (request_of _ _ _ _ _) with ask.
  rewrite handle_status_ok by assumption.
  unfold bind at 1. unfold lift at 1. rewrite Hjson.
  unfold bind at 1. unfold lift at 1. rewrite Hhref.
  unfold bind at 1. unfold lift at 1. cbn [as_url].
  unfold bind at 1.
  cbn [kw_params kw_data kw_headers kw_files kw_stream absolute_url
       without_auth].
  rewrite wrap_no_files by reflexivity.
  change (request_of _ _ _ _ _) with fetch.
  cbn [log fobjs]. fold fetched. rewrite <- app_assoc. cbn [app].
  destruct (handle_status fetched) as [a | e] eqn:Hh; [| reflexivity].
  apply handle_status_Ok_inv in Hh. subst a. reflexivity.
Qed.

End UploadEdges.

Lemma upload_file_without_check_witness :
  upload_file (disk_server not_found_response) demo_disk 0 "/dest/a.txt"
    false true (mkWorld [] [mkFile "hello world" 6]) =
  (Ok true,
   mkWorld
     [EvRequest (upload_url_request demo_disk "/dest/a.txt" false);
      EvRequest (put_file_request demo_disk upload_link "world")]
     [mkFile "hello world" 11]).
Proof.
  refine (upload_file_without_check (disk_server not_found_response)
            demo_disk 0 "/dest/a.txt" false true
            (mkWorld [] [mkFile "hello world" 6]) (mkFile "hello world" 6)
            (PDict [("href", PStr upload_link); ("method", PStr "PUT");
                    ("templated", PBool false)])
            upload_link eq_refl eq_refl _ eq_refl eq_refl).
  simpl. left. reflexivity.
Defined.

Lemma upload_file_lookup_error_witness :
  upload_file (disk_server forbidden_response) demo_disk 0 "/dest/a.txt"
    true true (mkWorld [] [mkFile "hello world" 0]) =
  (Raise (ApiError ForbiddenError (PStr "Forbidden")),
   mkWorld [EvRequest (meta_request demo_disk "/dest/a.txt")]
     [mkFile "hello world" 0]).
Proof.
  refine (upload_file_lookup_error (disk_server forbidden_response)
            demo_disk 0 "/dest/a.txt" (mkWorld [] [mkFile "hello world" 0])
            (ApiError ForbiddenError (PStr "Forbidden")) eq_refl _).
  intros message. discriminate.
Defined.

Lemma upload_file_metadata_without_md5_witness :
  upload_file (disk_server folder_metadata_response) demo_disk 0 "/dest/sub"
    true true (mkWorld [] [mkFile "hello world" 0]) =
  (Raise (KeyError "md5"),
   mkWorld [EvRequest (meta_request demo_disk "/dest/sub")]
     [mkFile "hello world" 11]).
Proof.
  refine (upload_file_metadata_without_md5
            (disk_server folder_metadata_response) demo_disk 0 "/dest/sub"
            (mkWorld [] [mkFile "hello world" 0]) (mkFile "hello world" 0)
            (PDict []) (KeyError "md5") eq_refl _ eq_refl eq_refl).
  simpl. left. reflexivity.
Defined.

Lemma download_file_two_steps_witness :
  download_file download_server demo_disk "/dest/a.txt" true empty_world =
  (Ok "alpha",
   mkWorld
     [EvRequest
        (mkRequest GET
           "https://cloud-api.yandex.net/v1/disk/resources/download"
           (auth_headers demo_disk) (Some [("path", PStr "/dest/a.txt")])
           None [] false);
      EvRequest
        (mkRequest GET download_link (auth_headers demo_disk) None None []
           true)]
     []).
Proof.
  refine (download_file_two_steps download_server demo_disk "/dest/a.txt"
            true empty_world (PDict [("href", PStr download_link)])
            download_link _ eq_refl eq_refl).
  simpl. left. reflexivity.
Defined.

(** * Further properties of the directory walk *)

Lemma prefix_refl (s : string) : String.prefix s s = true.
Proof.
  induction s as [| c s IH]; [reflexivity |].
  simpl. destruct (ascii_dec c c); [exact IH | contradiction].
Qed.

Lemma prefix_app (s t : string) : String.prefix s (s ++ t) = true.
Proof.
  induction s as [| c s IH]; simpl.
  - destruct t; reflexivity.
  - destruct (ascii_dec c c); [exact IH | contradiction].
Qed.

Lemma string_skip_app (s t : string) :
  string_skip (String.length s) (s ++ t) = t.
Proof. induction s as [| c s IH]; [reflexivity | exact IH]. Qed.

(** Dropping the rest of a match: [skip] characters go, the scan resumes
    behind them. *)
Lemma re_sub_from_skip (start_path a b : string) :
  re_sub_from start_path (String.length a) (a ++ b) =
  re_sub_from start_path 0 b.
Proof.
  induction a as [| c a IH]; [reflexivity |].
  simpl. exact IH.
Qed.

Lemma re_sub_from_skip_all (start_path a : string) :
  re_sub_from start_path (String.length a) a = "".
Proof.
  induction a as [| c a IH]; [reflexivity | exact IH].
Qed.

Lemma match_start_path_slash (s rest : string) :
  starts_with_star rest = false ->
  match_start_path s (s ++ "/" ++ rest) = S (String.length s).
Proof.
  intros Hstar. unfold match_start_path.
  rewrite prefix_app, string_skip_app.
  change ("/" ++ rest) with (String "/" rest).
  destruct rest as [| c rest]; [now rewrite Nat.add_1_r |].
  destruct c as [[] [] [] [] [] [] [] []]; try discriminate;
    now rewrite Nat.add_1_r.
Qed.

Lemma match_start_path_self (s : string) :
  match_start_path s s = String.length s.
Proof.
  unfold match_start_path. rewrite prefix_refl.
  rewrite string_skip_all by lia. reflexivity.
Qed.

Lemma re_sub_self (s : string) : re_sub_start_path s s = "".
Proof.
  unfold re_sub_start_path. destruct s as [| c s]; [reflexivity |].
  cbn [re_sub_from]. rewrite match_start_path_self. cbn [String.length].
  apply re_sub_from_skip_all.
Qed.

Lemma re_sub_behind_start (s rest : string) :
  starts_with_star rest = false ->
  re_sub_start_path s (s ++ "/" ++ rest) = re_sub_start_path s rest.
Proof.
  intros Hstar. unfold re_sub_start_path.
  destruct s as [| c s].
  - change ("" ++ "/" ++ rest) with (String "/" rest).
    cbn [re_sub_from].
    change (String "/" rest) with ("" ++ "/" ++ rest).
    rewrite match_start_path_slash by assumption. reflexivity.
  - change ((String c s) ++ "/" ++ rest) with (String c (s ++ "/" ++ rest)).
    cbn [re_sub_from].
    change (String c (s ++ "/" ++ rest)) with ((String c s) ++ "/" ++ rest).
    rewrite match_start_path_slash by assumption.
    cbn [String.length].
    replace (s ++ "/" ++ rest) with ((s ++ "/") ++ rest).
    + replace (S (String.length s)) with (String.length (s ++ "/")).
      * apply re_sub_from_skip.
      * clear. induction s as [| a s IH]; [reflexivity |].
        simpl. now rewrite IH.
    + clear. induction s as [| a s IH]; [reflexivity |].
      simpl. now rewrite IH.
Qed.

Lemma match_start_path_none (s t : string) :
  String.prefix s t = false -> match_start_path s t = 0%nat.
Proof. intros H. unfold match_start_path. now rewrite H. Qed.

Lemma re_sub_no_occurrence (s t : string) :
  is_substring s t = false -> re_sub_start_path s t = t.
Proof.
  unfold re_sub_start_path. induction t as [| c t IH]; intros H;
    [reflexivity |].
  cbn [is_substring] in H. apply orb_false_iff in H. destruct H as [Hp Hs].
  cbn [re_sub_from]. rewrite (match_start_path_none _ _ Hp).
  now rewrite IH.
Qed.

Lemma re_sub_join (start_path rel : string) :
  String.eqb start_path "" = false ->
  ends_with_slash start_path = false ->
  starts_with_slash rel = false ->
  starts_with_star rel = false ->
  is_substring start_path rel = false ->
  re_sub_start_path start_path (os_path_join start_path rel) = rel.
Proof.
  intros Hne Hend Hslash Hstar Hocc.
  unfold os_path_join. rewrite Hslash, Hne, Hend. cbn [orb].
  rewrite re_sub_behind_start by assumption.
  now apply re_sub_no_occurrence.
Qed.

Lemma regex_literal_no_star (s : string) :
  regex_literal s = true -> starts_with_star s = false.
Proof.
  destruct s as [| c s]; [reflexivity |].
  cbn [regex_literal]. intros H. apply andb_true_iff in H. destruct H as [H _].
  cbn [starts_with_star].
  destruct (Ascii.eqb_spec c "*") as [-> | Hne]; [discriminate |].
  destruct c as [[] [] [] [] [] [] [] []]; try reflexivity.
  now contradiction Hne.
Qed.

(** X11. The relative path of an item is what follows the start path: for
    a start path without regular expression metacharacters and an item
    [start/rel] where the start path does not occur in [rel], the pattern
    leaves exactly [rel], so the remote path is the destination joined
    with [rel]. *)
Theorem related_path_of_item (start_path rel : string) :
  regex_literal start_path = true ->
  String.eqb start_path "" = false ->
  ends_with_slash start_path = false ->
  starts_with_slash rel = false ->
  starts_with_star rel = false ->
  is_substring start_path rel = false ->
  re_sub_start_path start_path (os_path_join start_path rel) = rel.
Proof.
  intros _ Hne Hend Hslash Hstar Hocc. now apply re_sub_join.
Qed.

(** X12. The pattern is not anchored: a start path without regular
    expression metacharacters is deleted wherever it occurs.  A directory
    inside the start directory that bears the start path as its name gets
    the empty relative path, as the start directory itself does, and what
    lies in it is placed as if it lay in the start directory. *)
Theorem related_path_of_nested_start (start_path rel : string) :
  regex_literal start_path = true ->
  re_sub_start_path start_path start_path = "" /\
  re_sub_start_path start_path (start_path ++ "/" ++ start_path) = "" /\
  re_sub_start_path start_path
    (start_path ++ "/" ++ start_path ++ "/" ++ rel) =
  re_sub_start_path start_path (start_path ++ "/" ++ rel).
Proof.
  intros Hliteral. apply regex_literal_no_star in Hliteral as Hs.
  split; [apply re_sub_self | split].
  - rewrite re_sub_behind_start by assumption. apply re_sub_self.
  - rewrite re_sub_behind_start.
    + reflexivity.
    + destruct start_path as [| c s]; [reflexivity | exact Hs].
Qed.

Lemma related_path_of_item_witness :
  re_sub_start_path "root" (os_path_join "root" "sub/b.txt") = "sub/b.txt".
Proof.
  apply (related_path_of_item "root" "sub/b.txt"); reflexivity.
Defined.

Lemma related_path_of_nested_start_witness :
  re_sub_start_path "root" "root" = "" /\
  re_sub_start_path "root" ("root" ++ "/" ++ "root") = "" /\
  re_sub_start_path "root" ("root" ++ "/" ++ "root" ++ "/" ++ "x") =
  re_sub_start_path "root" ("root" ++ "/" ++ "x").
Proof.
  apply (related_path_of_nested_start "root" "x"); reflexivity.
Defined.

Section DirectoryEdges.

Variable server : Server.
Variable repr_str : string -> string.
Variable fs : FileSystem.
Variable self : YandexDisk.

(** X13. A local path that matches nothing, and one without regular
    expression metacharacters that matches only itself with nothing below
    it (a single file, an empty directory): [upload_directory] sends
    nothing, opens nothing and returns. *)
Theorem upload_directory_nothing_to_do (local_path path : string)
    (overwrite skip_exists : bool) (w : World) :
  (glob fs local_path = [] ->
   forall fuel,
     upload_directory server repr_str fs (S fuel) self local_path path
       overwrite skip_exists w = (Some (Ok tt), w)) /\
  (regex_literal local_path = true ->
   glob fs local_path = [local_path] ->
   glob fs (os_path_join local_path "*") = [] ->
   forall fuel,
     upload_directory server repr_str fs (S (S fuel)) self local_path path
       overwrite skip_exists w = (Some (Ok tt), w)).
Proof.
  split.
  - intros Hglob fuel. unfold upload_directory.
    cbn [_iter_directory_content]. rewrite Hglob. reflexivity.
  - intros _ Hglob Hbelow fuel. unfold upload_directory.
    cbn [_iter_directory_content]. rewrite Hglob. cbn [map].
    rewrite Hbelow. cbn [map concat_options app].
    rewrite re_sub_self. reflexivity.
Qed.

Lemma for_each_map {A B : Type} (f : A -> B) (l : list A)
    (body : B -> M unit) :
  for_each (map f l) body = for_each l (fun x => body (f x)).
Proof.
  induction l as [| x l IH]; [reflexivity |].
  simpl. now rewrite IH.
Qed.

Lemma for_each_ext {A : Type} (l : list A) (body body' : A -> M unit) :
  (forall x, In x l -> body x = body' x) ->
  for_each l body = for_each l body'.
Proof.
  induction l as [| x l IH]; intros H; [reflexivity |].
  simpl. rewrite (H x) by now left.
  rewrite IH; [reflexivity |]. intros y Hy. apply H. now right.
Qed.

Lemma iter_plain_files (dir : string) (names : list string) (fuel : nat) :
  (forall name, In name names ->
                isdir fs (os_path_join dir name) = false /\
                glob fs (os_path_join (os_path_join dir name) "*") = []) ->
  concat_options
    (map (fun path_item =>
            match _iter_directory_content fs (S fuel)
                    (os_path_join path_item "*") (Some dir) with
            | Some below =>
                Some ((isdir fs path_item, path_item,
                       re_sub_start_path dir path_item) :: below)
            | None => None
            end)
       (map (os_path_join dir) names)) =
  Some (map (fun name =>
               (false, os_path_join dir name,
                re_sub_start_path dir (os_path_join dir name)))
          names).
Proof.
  intros Hfiles. induction names as [| name names IH]; [reflexivity |].
  cbn [map concat_options].
  destruct (Hfiles name (or_introl eq_refl)) as [Hdir Hnone].
  cbn [_iter_directory_content]. rewrite Hnone, Hdir.
  cbn [map concat_options].
  cbn [_iter_directory_content] in IH. rewrite IH; [reflexivity |].
  intros n Hn. apply Hfiles. now right.
Qed.

(** What the walk yields for a directory that holds plain files only. *)
Lemma iter_flat_directory (dir : string) (names : list string) (fuel : nat) :
  glob fs dir = [dir] ->
  glob fs (os_path_join dir "*") = map (os_path_join dir) names ->
  (forall name, In name names ->
                isdir fs (os_path_join dir name) = false /\
                glob fs (os_path_join (os_path_join dir name) "*") = []) ->
  _iter_directory_content fs (S (S (S fuel))) dir None =
  Some ((isdir fs dir, dir, "")
          :: map (fun name =>
                    (false, os_path_join dir name,
                     re_sub_start_path dir (os_path_join dir name)))
               names).
Proof.
  intros Hglob Hbelow Hfiles.
  cbn [_iter_directory_content]. rewrite Hglob. cbn [map].
  rewrite Hbelow, re_sub_self.
  pose proof (iter_plain_files dir names fuel Hfiles) as Hitems.
  cbn [_iter_directory_content] in Hitems. rewrite Hitems.
  cbn [concat_options]. now rewrite app_nil_r.
Qed.

(** X14. A directory whose path has no regular expression metacharacter
    and that holds plain files only, none of them hidden from the listing:
    the upload is one file upload per entry, in listing order, each to the
    destination joined with the entry's name; no folder is created, not
    even the destination. *)
Theorem upload_directory_flat (dir path : string) (names : list string)
    (overwrite skip_exists : bool) (fuel : nat) (w : World) :
  regex_literal dir = true ->
  glob fs dir = [dir] ->
  glob fs (os_path_join dir "*") = map (os_path_join dir) names ->
  (forall name, In name names ->
                isdir fs (os_path_join dir name) = false /\
                glob fs (os_path_join (os_path_join dir name) "*") = []) ->
  String.eqb dir "" = false ->
  ends_with_slash dir = false ->
  (forall name, In name names ->
                String.eqb name "" = false /\
                starts_with_slash name = false /\
                starts_with_star name = false /\
                is_substring dir name = false) ->
  upload_directory server repr_str fs (S (S (S fuel))) self dir path
    overwrite skip_exists w =
  terminating
    (for_each names
       (fun name =>
          upload_one server fs self (os_path_join dir name)
            (os_path_join path name) overwrite skip_exists)) w.
Proof.
  intros _ Hglob Hbelow Hfiles Hdir Hend Hnames.
  unfold upload_directory.
  rewrite (iter_flat_directory dir names fuel) by assumption.
  unfold terminating. cbn [for_each]. rewrite upload_item_start.
  unfold bind at 1. unfold ret at 1.
  rewrite for_each_map.
  rewrite (for_each_ext names _
             (fun name =>
                upload_one server fs self (os_path_join dir name)
                  (os_path_join path name) overwrite skip_exists));
    [reflexivity |].
  intros name Hin. destruct (Hnames name Hin) as (Hne & Hslash & Hstar & Hocc).
  rewrite re_sub_join by assumption.
  apply upload_item_file. intros ->. discriminate.
Qed.

End DirectoryEdges.

Lemma upload_directory_nothing_to_do_witness :
  upload_directory (constant_server no_content_response) plain_repr
    (tree_fs example_tree) 1 demo_disk "nowhere" "/dest" false true
    empty_world = (Some (Ok tt), empty_world) /\
  upload_directory (constant_server no_content_response) plain_repr
    (tree_fs lone_tree) 2 demo_disk "drafts/README" "/dest" false true
    empty_world = (Some (Ok tt), empty_world).
Proof.
  split.
  - apply (proj1 (upload_directory_nothing_to_do
                    (constant_server no_content_response) plain_repr
                    (tree_fs example_tree) demo_disk "nowhere" "/dest"
                    false true empty_world)).
    reflexivity.
  - apply (proj2 (upload_directory_nothing_to_do
                    (constant_server no_content_response) plain_repr
                    (tree_fs lone_tree) demo_disk "drafts/README" "/dest"
                    false true empty_world)); reflexivity.
Defined.

Lemma upload_directory_flat_witness :
  upload_directory (disk_server not_found_response) plain_repr
    (tree_fs example_tree) 3 demo_disk "root/sub" "/dest" false true
    empty_world =
  (Some (Ok tt),
   mkWorld
     [EvRequest (upload_url_request demo_disk "/dest/b.txt" false);
      EvRequest (put_file_request demo_disk upload_link "beta")]
     [mkFile "beta" 4]).
Proof.
  rewrite (upload_directory_flat (disk_server not_found_response) plain_repr
             (tree_fs example_tree) demo_disk "root/sub" "/dest" ["b.txt"]
             false true 0 empty_world); try reflexivity.
  - intros name [<- | []]. split; reflexivity.
  - intros name [<- | []]. repeat split; reflexivity.
Defined.

(** * Further properties of the query strings *)

Lemma nat_of_ascii_bound (c : ascii) : (nat_of_ascii c < 256)%nat.
Proof.
  destruct c as [[] [] [] [] [] [] [] []]; vm_compute; lia.
Qed.

Lemma hex_digit_safe (k : nat) :
  (k < 16)%nat -> always_safe (hex_digit k) = true.
Proof.
  intros Hk. do 16 (destruct k as [| k]; [reflexivity |]). lia.
Qed.



Lemma quote_plus_url_safe (s : string) :
  string_forall url_safe (quote_plus s) = true.
Proof.
  induction s as [| c s IH]; [reflexivity |].
  cbn [quote_plus]. destruct (always_safe c) eqn:Hsafe.
  - cbn [string_forall]. unfold url_safe at 1. now rewrite Hsafe, IH.
  - destruct (Ascii.eqb c " "); [exact IH |].
    pose proof (nat_of_ascii_bound c) as Hb.
    cbn [string_forall]. unfold url_safe at 2 3.
    rewrite !hex_digit_safe, IH; [reflexivity | |].
    + apply Nat.mod_upper_bound. discriminate.
    + apply Nat.Div0.div_lt_upper_bound. exact Hb.
Qed.

Lemma count_char_app (c : ascii) (a b : string) :
  count_char c (a ++ b) = (count_char c a + count_char c b)%nat.
Proof.
  induction a as [| x a IH]; [reflexivity |].
  simpl. destruct (Ascii.eqb x c); simpl; now rewrite IH.
Qed.

Lemma count_char_safe (c : ascii) (s : string) :
  url_safe c = false -> string_forall url_safe s = true ->
  count_char c s = 0%nat.
Proof.
  intros Hc. induction s as [| x s IH]; intros Hs; [reflexivity |].
  cbn [string_forall] in Hs. apply andb_true_iff in Hs. destruct Hs as [Hx Hs].
  cbn [count_char]. destruct (Ascii.eqb_spec x c) as [-> |].
  - congruence.
  - now apply IH.
Qed.


Section QueryShape.

Variable repr_str : string -> string.

Lemma urlencode_cons (kv : string * pyval) (query : list (string * pyval)) :
  query <> [] ->
  urlencode repr_str (kv :: query) =
  ((quote_plus (fst kv) ++ "=" ++ quote_plus (py_str repr_str (snd kv)))
     ++ "&" ++ urlencode repr_str query).
Proof.
  intros Hne. destruct query as [| kv' query]; [contradiction |].
  reflexivity.
Qed.

Lemma urlencode_single (kv : string * pyval) :
  urlencode repr_str [kv] =
  quote_plus (fst kv) ++ "=" ++ quote_plus (py_str repr_str (snd kv)).
Proof. reflexivity. Qed.

Lemma count_item (c : ascii) (kv : string * pyval) :
  url_safe c = false ->
  count_char c
    (quote_plus (fst kv) ++ "=" ++ quote_plus (py_str repr_str (snd kv))) =
  count_char c "=".
Proof.
  intros Hc. rewrite !count_char_app.
  rewrite !(count_char_safe c (quote_plus _)) by
    (try assumption; apply quote_plus_url_safe).
  now rewrite Nat.add_0_r.
Qed.

(** X16. However the keys and the values read, the query string that
    [urlencode] builds for [n] parameters has exactly [n] equals signs and
    [n - 1] ampersands: no key or value can add or split a parameter. *)
Theorem urlencode_shape (query : list (string * pyval)) :
  count_char "=" (urlencode repr_str query) = List.length query /\
  count_char "&" (urlencode repr_str query) = (List.length query - 1)%nat.
Proof.
  induction query as [| kv query [IHeq IHamp]]; [split; reflexivity |].
  destruct query as [| kv' query].
  - rewrite urlencode_single, !count_item by reflexivity.
    split; reflexivity.
  - rewrite urlencode_cons by discriminate.
    set (item := quote_plus (fst kv) ++ "="
                   ++ quote_plus (py_str repr_str (snd kv))).
    rewrite !(count_char_app _ item), !(count_char_app _ "&").
    unfold item. rewrite !count_item by reflexivity.
    rewrite IHeq, IHamp. cbn [List.length count_char Ascii.eqb Bool.eqb].
    split; lia.
Qed.

End QueryShape.

(** * Further properties of the façade *)

Lemma string_app_nil_r (s : string) : s ++ "" = s.
Proof. induction s as [| c s IH]; [reflexivity |]. simpl. now rewrite IH. Qed.

Section FacadeEdges.

Variable server : Server.
Variable repr_str : string -> string.
Variable json_dumps : pyval -> string.
Variable self : YandexDisk.

(** X17. [set_meta_to_resource] puts [fields] into the query string only
    when it is truthy: [None], an empty list and an empty string are left
    out, anything else follows the path as [&fields=...]. *)
Theorem set_meta_to_resource_query (path : string) (data fields : pyval)
    (w : World) :
  new_events w
    (snd (set_meta_to_resource server repr_str json_dumps self path data
            fields w)) =
  [EvRequest
     (mkRequest PATCH
        ("https://cloud-api.yandex.net/v1/disk/resources/?path="
           ++ quote_plus path
           ++ (if py_truthy fields
               then "&fields=" ++ quote_plus (py_str repr_str fields)
               else ""))
        (auth_headers self) None
        (Some (json_dumps (PDict [("custom_properties", data)]))) [] false)].
Proof.
  unfold set_meta_to_resource, Requester_patch, bind.
  rewrite wrap_no_files by reflexivity. cbn [fst snd].
  set (r := request_of _ _ _ _ _).
  assert (Hr : r = mkRequest PATCH
        ("https://cloud-api.yandex.net/v1/disk/resources/?path="
           ++ quote_plus path
           ++ (if py_truthy fields
               then "&fields=" ++ quote_plus (py_str repr_str fields)
               else ""))
        (auth_headers self) None
        (Some (json_dumps (PDict [("custom_properties", data)]))) [] false).
  { unfold r, request_of, request_url, request_headers.
    cbn [absolute_url without_auth kw_headers kw_params kw_data kw_stream
         dict_set].
    destruct (py_truthy fields).
    - reflexivity.
    - rewrite string_app_nil_r. reflexivity. }
  destruct (handle_status _); [unfold lift |];
    cbn [snd]; rewrite <- Hr; now apply new_events_log.
Qed.

(** X18. [empty_trash] without a path ([None] or the empty string)
    addresses the whole trash: its DELETE goes to [disk/trash/resources/]
    with no query string; a path is sent as the only parameter. *)
Theorem empty_trash_request (fuel : nat) (path : pyval)
    (wait_for_finish : bool) (sleep : option Z) (w : World) :
  exists rest,
    new_events w
      (snd (empty_trash server repr_str fuel self path wait_for_finish
              sleep w)) =
    EvRequest
      (mkRequest DELETE
         ("https://cloud-api.yandex.net/v1/disk/trash/resources/"
            ++ (if py_truthy path
                then "?path=" ++ quote_plus (py_str repr_str path)
                else ""))
         (auth_headers self) None None [] false) :: rest.
Proof.
  unfold empty_trash, Requester_delete.
  unfold pbind at 1. unfold terminating at 1.
  rewrite wrap_no_files by reflexivity.
  set (r := request_of _ _ _ _ _).
  assert (Hr : r = mkRequest DELETE
         ("https://cloud-api.yandex.net/v1/disk/trash/resources/"
            ++ (if py_truthy path
                then "?path=" ++ quote_plus (py_str repr_str path)
                else ""))
         (auth_headers self) None None [] false).
  { unfold r, request_of, request_url, request_headers.
    destruct (py_truthy path); reflexivity. }
  rewrite <- Hr. clearbody r.
  destruct (handle_status _) as [response | e].
  - set (w1 := mkWorld _ _).
    destruct (waiting_log server self fuel response wait_for_finish sleep w1)
      as (es & Hlog).
    exists es. unfold pbind.
    destruct (_waiting_for_finish _ _ _ _ _ _ w1) as [[[a | e] |] w2];
      cbn [snd] in *; try (unfold terminating, ret; cbn [snd]);
      apply new_events_log; rewrite Hlog; unfold w1; cbn [log];
      now rewrite <- app_assoc.
  - exists []. now apply new_events_log.
Qed.

(** X19. [delete_resource] never looks at a body: when the DELETE is
    answered with a success status and there is nothing to wait for (the
    status is not 202, or the caller does not wait), the answer is [True]
    after that one request, even when the response has no body at all. *)
Theorem delete_resource_without_body (fuel : nat) (path : string)
    (permanently wait_for_finish : bool) (sleep : option Z) (w : World) :
  let r := mkRequest DELETE
             ("https://cloud-api.yandex.net/v1/disk/resources?path="
                ++ quote_plus path ++ "&permanently="
                ++ (if permanently then "True" else "False"))
             (auth_headers self) None None [] false in
  In (status_code (server (log w) r)) OK_STATUSES ->
  wait_for_finish = false \/ status_code (server (log w) r) <> 202 ->
  delete_resource server repr_str fuel self path permanently wait_for_finish
    sleep w =
  (Some (Ok true), mkWorld (log w ++ [EvRequest r])%list (fobjs w)).
Proof.
  intros r Hok Hnowait.
  unfold delete_resource, Requester_delete.
  unfold pbind at 1. unfold terminating at 1.
  rewrite wrap_no_files by reflexivity.
  set (r' := request_of _ _ _ _ _).
  assert (Hr : r' = r).
  { unfold r', r, request_of, request_url, request_headers, urlencode.
    cbn [map fst snd str_join py_str py_repr absolute_url without_auth
         kw_headers kw_params kw_data kw_stream no_kwargs dict_set].
    destruct permanently; reflexivity. }
  rewrite Hr. rewrite handle_status_ok by assumption.
  unfold pbind. unfold _waiting_for_finish.
  assert (E : (wait_for_finish
               && (status_code (server (log w) r) =? STATUS_ACCEPTED))%bool
              = false).
  { destruct Hnowait as [-> | Hne]; [reflexivity |].
    apply andb_false_iff. right. now apply Z.eqb_neq. }
  rewrite E. reflexivity.
Qed.

(** X20. A copy that waits returns the status document of the last poll,
    not the body of the response to the copy request: after a 202 with a
    link, [n] polls answered "not yet" and one answered with success, the
    result is that poll's body, after the POST and [n + 1] cycles. *)
Theorem copy_resource_returns_final_poll (from_path to_path : string)
    (overwrite : bool) (fields : pyval) (sleep : option Z) (w : World)
    (body final : pyval) (u : string) (n : nat) :
  let post := copy_request repr_str self from_path to_path overwrite fields in
  let started := (log w ++ [EvRequest post])%list in
  let secs := sleep_or_default sleep in
  let r := poll_request self u in
  let last := poll_response server started secs r n in
  status_code (server (log w) post) = 202 ->
  json (server (log w) post) = Ok body ->
  py_getitem body "href" = Ok (PStr u) ->
  0 <= secs ->
  (forall i, (i < n)%nat ->
             poll_pending (poll_response server started secs r i)) ->
  status_code last = 200 ->
  json last = Ok final ->
  py_getitem final "status" = Ok (PStr "success") ->
  forall fuel, (n < fuel)%nat ->
    copy_resource server repr_str fuel self from_path to_path overwrite
      fields true sleep w =
    (Some (Ok final),
     mkWorld (started ++ poll_cycles secs r (S n))%list (fobjs w)).
Proof.
  intros post started secs r last Hcode Hjson Hhref Hsecs Hpending Hlast
    Hfinal Hstatus fuel Hfuel.
  unfold copy_resource, Requester_post.
  unfold pbind at 1. unfold terminating at 1.
  rewrite wrap_no_files by reflexivity.
  change (request_of _ _ _ _ _) with post.
  rewrite handle_status_ok
    by (rewrite Hcode; simpl; right; right; left; reflexivity).
  unfold pbind.
  rewrite (waiting_enters_loop server self fuel _ body (PStr u))
    by assumption.
  rewrite (poll_loop_first_success server self u (sleep_or_default sleep) n
             Hsecs fuel); cbn [log fobjs].
  - apply Nat.ltb_lt in Hfuel. rewrite Hfuel.
    unfold terminating, lift. fold started secs r last. now rewrite Hfinal.
  - exact Hpending.
  - split; [exact Hlast |]. exists final. now split.
Qed.

End FacadeEdges.

Lemma delete_resource_without_body_witness :
  delete_resource (constant_server no_content_response) plain_repr 0
    demo_disk "/dest/a.txt" true true None empty_world =
  (Some (Ok true),
   mkWorld
     [EvRequest
        (mkRequest DELETE
           ("https://cloud-api.yandex.net/v1/disk/resources"
              ++ "?path=%2Fdest%2Fa.txt&permanently=True")
           (auth_headers demo_disk) None None [] false)]
     []).
Proof.
  refine (delete_resource_without_body (constant_server no_content_response)
            plain_repr demo_disk 0 "/dest/a.txt" true true None empty_world
            _ _).
  - simpl. right. right. right. left. reflexivity.
  - right. discriminate.
Defined.

Lemma copy_resource_returns_final_poll_witness :
  copy_resource
    (scripted_server [accepted_response; in_progress_response]
       success_response)
    plain_repr 3 demo_disk "/a.txt" "/b.txt" false PNone true None
    empty_world =
  (Some (Ok (PDict [("status", PStr "success")])),
   mkWorld
     (EvRequest (copy_request plain_repr demo_disk "/a.txt" "/b.txt" false
                   PNone)
        :: poll_cycles 3 (poll_request demo_disk operation_url) 2)
     []).
Proof.
  refine (copy_resource_returns_final_poll
            (scripted_server [accepted_response; in_progress_response]
               success_response)
            plain_repr demo_disk "/a.txt" "/b.txt" false PNone None
            empty_world
            (PDict [("href", PStr operation_url); ("method", PStr "GET");
                    ("templated", PBool false)])
            (PDict [("status", PStr "success")]) operation_url 1
            eq_refl eq_refl eq_refl _ _ eq_refl eq_refl eq_refl 3%nat _).
  - unfold sleep_or_default, _SLEEP. lia.
  - intros i Hi. destruct i as [| i]; [| lia].
    right. split; [reflexivity |].
    exists (PDict [("status", PStr "in-progress")]), (PStr "in-progress").
    repeat split. discriminate.
  - lia.
Defined.

Section FacadeMore.

Variable server : Server.
Variable repr_str : string -> string.
Variable self : YandexDisk.

Lemma waiting_skips (fuel : nat) (response : Response)
    (wait_for_finish : bool) (sleep : option Z) (w : World) :
  wait_for_finish = false \/ status_code response <> 202 ->
  _waiting_for_finish server fuel self response wait_for_finish sleep w =
  (Some (Ok response), w).
Proof.
  intros H. unfold _waiting_for_finish.
  destruct H as [-> | Hne]; [reflexivity |].
  apply Z.eqb_neq in Hne. unfold STATUS_ACCEPTED. rewrite Hne.
  now rewrite andb_false_r.
Qed.

(** With a turn of fuel and an interval that is not negative, the loop
    does sleep once before anything else. *)
Lemma poll_loop_sleeps_first (fuel : nat) (href : pyval) (secs : Z)
    (w : World) :
  0 <= secs ->
  exists es,
    log (snd (poll_loop server (S fuel) self href secs w)) =
    (log w ++ EvSleep secs :: es)%list /\
    poll_trace secs (EvSleep secs :: es).
Proof.
  intros Hsecs.
  destruct (poll_loop_trace server self (S fuel) href secs w)
    as (es & Hlog & Htrace).
  assert (Hgrows : exists es', log (snd (poll_loop server (S fuel) self href
                                           secs w)) =
                               (log w ++ EvSleep secs :: es')%list).
  { destruct href as [| | | u | |];
      try (exists []; cbn [poll_loop]; unfold pbind at 1;
           unfold terminating at 1; unfold time_sleep;
           destruct (Z.ltb_spec secs 0); [lia | reflexivity]).
    rewrite poll_loop_unfold by assumption.
    set (r := poll_request self u).
    set (w1 := mkWorld (log w ++ [EvSleep secs; EvRequest r])%list (fobjs w)).
    destruct (poll_loop_trace server self fuel (PStr u) secs w1)
      as (es1 & Hlog1 & _).
    assert (Hstop : exists es', log w1 = (log w ++ EvSleep secs :: es')%list)
      by now exists [EvRequest r].
    assert (Hgo : exists es',
               log (snd (poll_loop server fuel self (PStr u) secs w1)) =
               (log w ++ EvSleep secs :: es')%list).
    { exists (EvRequest r :: es1). rewrite Hlog1. unfold w1. cbn [log].
      now rewrite <- app_assoc. }
    destruct (handle_status _); [| exact Hstop].
    destruct (status_code _ =? STATUS_OK); [| exact Hgo].
    destruct (json _) as [body | e]; [| exact Hstop].
    destruct (py_getitem body "status") as [status | e]; [| exact Hstop].
    destruct (py_eq_str status "success"); [exact Hstop | exact Hgo]. }
  destruct Hgrows as (es' & Hgrows). exists es'. split; [exact Hgrows |].
  rewrite Hgrows in Hlog. apply app_inv_head in Hlog. now rewrite Hlog.
Qed.

(** X21. [restore_from_trash] offers no way not to wait: after its PUT,
    whatever it adds to the log is sleeps of 3, each followed by its poll,
    and when the PUT is answered 202 with a link the first of these sleeps
    does take place. *)
Theorem restore_from_trash_always_waits (fuel : nat) (path : string)
    (name : pyval) (overwrite : bool) (w : World) :
  let put := restore_request repr_str self path name overwrite in
  exists es,
    new_events w
      (snd (restore_from_trash server repr_str (S fuel) self path name
              overwrite w)) = EvRequest put :: es /\
    poll_trace 3 es /\
    (forall body href,
       status_code (server (log w) put) = 202 ->
       json (server (log w) put) = Ok body ->
       py_getitem body "href" = Ok href ->
       exists es', es = EvSleep 3 :: es').
Proof.
  intros put. unfold restore_from_trash, Requester_put.
  unfold pbind at 1. unfold terminating at 1.
  rewrite wrap_no_files by reflexivity.
  change (request_of _ _ _ _ _) with put.
  set (w1 := mkWorld (log w ++ [EvRequest put])%list (fobjs w)).
  assert (Hfinish : forall (es : list Event) (r : option (result Response))
                           (w2 : World),
             log w2 = (log w1 ++ es)%list ->
             new_events w
               (snd (match r with
                     | Some (Ok finished) =>
                         terminating (lift (json finished)) w2
                     | Some (Raise e) => (Some (Raise e), w2)
                     | None => (None, w2)
                     end)) = EvRequest put :: es).
  { intros es r w2 Hw2. apply new_events_log.
    destruct r as [[a | e] |]; cbn [snd terminating lift];
      rewrite Hw2; unfold w1; cbn [log]; now rewrite <- app_assoc. }
  destruct (handle_status (server (log w) put)) as [response | e] eqn:Hh.
  - apply handle_status_Ok_inv in Hh. subst response.
    set (response := server (log w) put).
    unfold pbind.
    destruct (Z.eqb_spec (status_code response) 202) as [Hcode | Hcode].
    + destruct (json response) as [body | e] eqn:Hjson.
      * destruct (py_getitem body "href") as [href | e] eqn:Hhref.
        -- rewrite (waiting_enters_loop server self (S fuel) response body
                      href) by assumption.
           destruct (poll_loop_sleeps_first fuel href (sleep_or_default None)
                       w1) as (es & Hlog & Htrace);
             [unfold sleep_or_default, _SLEEP; lia |].
           exists (EvSleep 3 :: es). split; [| split].
           ++ destruct (poll_loop _ _ _ _ _ w1) as [r w2].
              now apply Hfinish.
           ++ exact Htrace.
           ++ intros _ _ _ _ _. now exists es.
        -- exists []. split; [| split; [constructor |]].
           ++ unfold _waiting_for_finish. rewrite Hcode.
              cbn [andb Z.eqb STATUS_ACCEPTED Pos.eqb].
              unfold pbind, terminating, lift. rewrite Hjson, Hhref.
              now apply new_events_log.
           ++ intros body' href' _ Hb. injection Hb as <-. congruence.
      * exists []. split; [| split; [constructor |]].
        -- unfold _waiting_for_finish. rewrite Hcode.
           cbn [andb Z.eqb STATUS_ACCEPTED Pos.eqb].
           unfold pbind, terminating, lift. rewrite Hjson.
           now apply new_events_log.
        -- intros body' href' _ Hb. discriminate.
    + exists []. split; [| split; [constructor |]].
      * rewrite (waiting_skips (S fuel) response true None w1)
          by (right; exact Hcode).
        apply (Hfinish [] (Some (Ok response)) w1). now rewrite app_nil_r.
      * intros body href Hc. contradiction.
  - exists []. split; [| split; [constructor |]].
    + now apply new_events_log.
    + intros body href Hc.
      unfold handle_status in Hh. rewrite Hc in Hh. discriminate.
Qed.

(** A GET whose parsed body is the result. *)
Lemma get_json (u : string) (ps : option (list (string * pyval)))
    (w : World) :
  let r := mkRequest GET ("https://cloud-api.yandex.net/v1/" ++ u)
             (auth_headers self) ps None [] false in
  (response <- Requester_get server (_requester self) u ps no_kwargs ;;
   lift (json response)) w =
  (match handle_status (server (log w) r) with
   | Ok response => json response
   | Raise e => Raise e
   end,
   mkWorld (log w ++ [EvRequest r])%list (fobjs w)).
Proof.
  intros r. unfold Requester_get, bind.
  rewrite wrap_no_files by reflexivity.
  change (request_of _ _ _ _ _) with r.
  destruct (handle_status _); reflexivity.
Qed.

(** X22. [get_last_uploaded] asks the endpoint that [get_files_list]
    asks, [disk/resources/files]: against a server that goes by the verb
    and the URL of a request, it returns what [get_files_list] returns. *)
Theorem get_last_uploaded_asks_files_list
    (limit offset media_type fields preview_size preview_crop : pyval)
    (w : World) :
  (forall l l' r r', verb r = verb r' -> url r = url r' ->
                     server l r = server l' r') ->
  fst (get_last_uploaded server self limit media_type fields preview_size
         preview_crop w) =
  fst (get_files_list server self limit offset media_type fields preview_size
         preview_crop w).
Proof.
  intros Hserver. unfold get_last_uploaded, get_files_list.
  rewrite !get_json. cbn [fst].
  match goal with
  | |- context [handle_status (server ?l ?r)] =>
      match goal with
      | |- _ = match handle_status (server ?l' ?r') with _ => _ end =>
          rewrite (Hserver l l' r r') by reflexivity
      end
  end.
  reflexivity.
Qed.

(** X23. Called with [wait_for_finish] false, [move_resource] and
    [upload_file_from_url] make one request and return the parsed body of
    its response, also when the response is a 202 that only links to the
    operation. *)
Theorem no_wait_returns_first_body (fuel : nat) (from_path to_path : string)
    (source : string) (fields : pyval) (overwrite disable_redirects : bool)
    (sleep : option Z) (w : World) :
  let move := mkRequest POST
                ("https://cloud-api.yandex.net/v1/disk/resources/move?"
                   ++ urlencode repr_str
                        [ ("from", PStr from_path);
                          ("path", PStr to_path);
                          ("overwrite", PBool overwrite) ])
                (auth_headers self) None None [] false in
  let fetch := mkRequest POST
                 ("https://cloud-api.yandex.net/v1/disk/resources/upload?"
                    ++ urlencode repr_str
                         [ ("url", PStr source);
                           ("path", PStr to_path);
                           ("fields", fields);
                           ("disable_redirects", PBool disable_redirects) ])
                 (auth_headers self) None None [] false in
  (In (status_code (server (log w) move)) OK_STATUSES ->
   move_resource server repr_str fuel self from_path to_path overwrite false
     sleep w =
   (Some (json (server (log w) move)),
    mkWorld (log w ++ [EvRequest move])%list (fobjs w))) /\
  (In (status_code (server (log w) fetch)) OK_STATUSES ->
   upload_file_from_url server repr_str fuel self source to_path fields
     disable_redirects false sleep w =
   (Some (json (server (log w) fetch)),
    mkWorld (log w ++ [EvRequest fetch])%list (fobjs w))).
Proof.
  intros move fetch. split; intros Hok.
  - unfold move_resource, Requester_post.
    unfold pbind at 1. unfold terminating at 1.
    rewrite wrap_no_files by reflexivity.
    change (request_of _ _ _ _ _) with move.
    rewrite handle_status_ok by assumption. reflexivity.
  - unfold upload_file_from_url, Requester_post.
    unfold pbind at 1. unfold terminating at 1.
    rewrite wrap_no_files by reflexivity.
    change (request_of _ _ _ _ _) with fetch.
    rewrite handle_status_ok by assumption. reflexivity.
Qed.

End FacadeMore.

Lemma get_last_uploaded_asks_files_list_witness :
  fst (get_last_uploaded (disk_server same_md5_response) demo_disk (PInt 5)
         PNone PNone PNone PNone empty_world) =
  fst (get_files_list (disk_server same_md5_response) demo_disk (PInt 5)
         (PInt 20) PNone PNone PNone PNone empty_world).
Proof.
  apply (get_last_uploaded_asks_files_list (disk_server same_md5_response)
           demo_disk (PInt 5) (PInt 20) PNone PNone PNone PNone empty_world).
  intros l l' r r' _ Hurl. unfold disk_server. now rewrite Hurl.
Defined.

Lemma no_wait_returns_first_body_witness :
  move_resource (constant_server accepted_response) plain_repr 0 demo_disk
    "/a.txt" "/b.txt" false false None empty_world =
  (Some (Ok (PDict [("href", PStr operation_url); ("method", PStr "GET");
                    ("templated", PBool false)])),
   mkWorld
     [EvRequest
        (mkRequest POST
           ("https://cloud-api.yandex.net/v1/disk/resources/move?"
              ++ "from=%2Fa.txt&path=%2Fb.txt&overwrite=False")
           (auth_headers demo_disk) None None [] false)]
     []).
Proof.
  refine (proj1 (no_wait_returns_first_body
                   (constant_server accepted_response) plain_repr demo_disk
                   0 "/a.txt" "/b.txt" "" PNone false false None empty_world)
            _).
  simpl. right. right. left. reflexivity.
Defined.

(** * The interval of the poll loop *)

(** C9 on the code: the interval is [sleep or self._SLEEP], which takes a
    supplied interval of 0 for no interval.  A wait that enters the loop
    with [sleep=0] sleeps 3 before its first poll, and every later sleep
    lasts 3 as well, where the docstring makes [sleep] the sleep time in
    seconds. *)
Theorem waiting_zero_interval_sleeps_three (server : Server)
    (self : YandexDisk) (fuel : nat) (response : Response)
    (body href : pyval) (w : World) :
  status_code response = 202 ->
  json response = Ok body ->
  py_getitem body "href" = Ok href ->
  exists es,
    new_events w
      (snd (_waiting_for_finish server (S fuel) self response true (Some 0)
              w)) = EvSleep 3 :: es /\
    poll_trace 3 (EvSleep 3 :: es).
Proof.
  intros Hcode Hjson Hhref.
  rewrite (waiting_enters_loop server self (S fuel) response body href)
    by assumption.
  change (sleep_or_default (Some 0)) with 3.
  destruct (poll_loop_sleeps_first server self fuel href 3 w)
    as (es & Hlog & Htrace); [lia |].
  exists es. split; [now apply new_events_log | exact Htrace].
Qed.

Lemma waiting_zero_interval_sleeps_three_witness :
  exists es,
    new_events empty_world
      (snd (_waiting_for_finish (constant_server in_progress_response) 3
              demo_disk accepted_response true (Some 0) empty_world)) =
    EvSleep 3 :: es /\
    poll_trace 3 (EvSleep 3 :: es).
Proof.
  apply (waiting_zero_interval_sleeps_three
           (constant_server in_progress_response) demo_disk 2
           accepted_response
           (PDict [("href", PStr operation_url); ("method", PStr "GET");
                   ("templated", PBool false)])
           (PStr operation_url) empty_world); reflexivity.
Defined.

(** X24. With no interval supplied, or a positive one, a wait that enters
    the loop does sleep before its first poll, and every sleep lasts the
    configured interval: 3 by default, the supplied interval otherwise. *)
Theorem waiting_sleeps_configured_interval (server : Server)
    (self : YandexDisk) (fuel : nat) (response : Response)
    (body href : pyval) (sleep : option Z) (w : World) :
  status_code response = 202 ->
  json response = Ok body ->
  py_getitem body "href" = Ok href ->
  (forall secs, sleep = Some secs -> 0 < secs) ->
  let interval := match sleep with
                  | None => 3
                  | Some secs => secs
                  end in
  exists es,
    new_events w
      (snd (_waiting_for_finish server (S fuel) self response true sleep w)) =
    EvSleep interval :: es /\
    poll_trace interval (EvSleep interval :: es).
Proof.
  intros Hcode Hjson Hhref Hpositive interval.
  rewrite (waiting_enters_loop server self (S fuel) response body href)
    by assumption.
  assert (Hd : sleep_or_default sleep = interval /\ 0 <= interval).
  { unfold interval. destruct sleep as [secs |].
    - specialize (Hpositive secs eq_refl).
      destruct secs; try lia. split; [reflexivity | lia].
    - split; [reflexivity | lia]. }
  destruct Hd as [-> Hsecs].
  destruct (poll_loop_sleeps_first server self fuel href interval w Hsecs)
    as (es & Hlog & Htrace).
  exists es. split; [now apply new_events_log | exact Htrace].
Qed.

Lemma waiting_sleeps_configured_interval_witness :
  exists es,
    new_events empty_world
      (snd (_waiting_for_finish (constant_server in_progress_response) 3
              demo_disk accepted_response true (Some 7) empty_world)) =
    EvSleep 7 :: es /\
    poll_trace 7 (EvSleep 7 :: es).
Proof.
  apply (waiting_sleeps_configured_interval
           (constant_server in_progress_response) demo_disk 2
           accepted_response
           (PDict [("href", PStr operation_url); ("method", PStr "GET");
                   ("templated", PBool false)])
           (PStr operation_url) (Some 7) empty_world); try reflexivity.
  intros secs [= <-]. lia.
Defined.
